(** * Access control and identity subsystem of pakatoi-mvp

    A shallow embedding of the parts of the repository that decide who may
    do what: the TypeORM entities [Permission], [Role] and [User] with their
    query and mutation methods, the Express middleware [authMiddleware] and
    [adminMiddleware], the two [UserService.deleteUser] implementations and
    the three serialisation filters.

    Conventions of the embedding.
    - A JavaScript exception is a value of [Thrown]; a call that may throw
      returns a [result].
    - A field is an [option] exactly where the source declares it optional
      ([phone?: string]) or tests it for absence ([if (!this.permissions)],
      [this.password && ...]), or where a query strips it ([select('-password')]).
    - A JavaScript object used as a bag of properties is a [gmap string V].
    - Dates are integers (milliseconds); `await` is sequencing. *)

From Stdlib Require Import String Ascii List ZArith Bool Lia.
From stdpp Require Import base option list gmap strings.

Import ListNotations.
Local Open Scope string_scope.
Local Open Scope list_scope.

(** ** JavaScript values and control *)

Module Js.

(** What a [throw] carries.  Every [throw] in the sources carries an
    [Error] instance; the handlers nevertheless test
    [error instanceof Error], so the other case is kept. *)
Inductive Thrown : Type :=
| ErrorObj (name message : string)
| NonError (text : string).

Inductive result (A : Type) : Type :=
| Ok (a : A)
| Throw (e : Thrown).
Arguments Ok {A} a.
Arguments Throw {A} e.

(** [error instanceof Error ? error.message : 'Unknown error'] *)
Definition errorMessage (e : Thrown) : string :=
  match e with
  | ErrorObj _ m => m
  | NonError _ => "Unknown error"
  end.

(** [`${error}`]: [Error.prototype.toString] joins name and message
    with a colon and drops whichever of the two is empty. *)
Definition toString (e : Thrown) : string :=
  match e with
  | ErrorObj n m =>
      if String.eqb n "" then m
      else if String.eqb m "" then n
      else n +:+ ": " +:+ m
  | NonError text => text
  end.

(** Truthiness of a [string | undefined]: [undefined] and [''] are falsy. *)
Definition truthy (v : option string) : bool :=
  match v with
  | None => false
  | Some s => negb (String.eqb s "")
  end.

(** [s.startsWith(p)] *)
Fixpoint startsWith (p s : string) : bool :=
  match p with
  | EmptyString => true
  | String a p' =>
      match s with
      | EmptyString => false
      | String b s' => Ascii.eqb a b && startsWith p' s'
      end
  end.

(** [s.slice(n)] *)
Fixpoint slice (n : nat) (s : string) : string :=
  match n, s with
  | O, _ => s
  | S n', String _ s' => slice n' s'
  | S _, EmptyString => EmptyString
  end.

(** [s.replace(pat, rep)] with a string pattern: only the first
    occurrence, wherever it stands, is replaced.  The replacement is
    taken literally (the source passes ['']). *)
Fixpoint replace (pat rep s : string) : string :=
  if startsWith pat s then rep +:+ slice (String.length pat) s
  else match s with
       | EmptyString => EmptyString
       | String c s' => String c (replace pat rep s')
       end.

(** [xs.some(f)] for a callback that may throw: stops at the first
    element the callback accepts or throws on. *)
Fixpoint some {A : Type} (f : A -> result bool) (xs : list A) : result bool :=
  match xs with
  | [] => Ok false
  | x :: xs' =>
      match f x with
      | Ok true => Ok true
      | Ok false => some f xs'
      | Throw e => Throw e
      end
  end.

(** Reading a property of [undefined]. *)
Definition typeErrorReading (prop : string) : Thrown :=
  ErrorObj "TypeError" ("Cannot read properties of undefined (reading '" +:+ prop +:+ "')").

End Js.
Export Js.

(** ** TypeORM entities (permission.entity.ts, role.entity.ts, user.entity.ts)

    The back references [Permission.roles] and [Role.users] make the object
    graph cyclic and are read by none of the methods; they are left out. *)

Module Permission.
Record t : Type := mk {
  id : string;
  name : string;
  description : option string;
  createdAt : Z;
  updatedAt : Z
}.
End Permission.

Module Role.
Record t : Type := mk {
  id : string;
  name : string;
  description : option string;
  isActive : bool;
  priority : Z;
  permissions : option (list Permission.t);
  createdAt : Z;
  updatedAt : Z
}.

Definition with_permissions (ps : option (list Permission.t)) (r : t) : t :=
  mk (id r) (name r) (description r) (isActive r) (priority r) ps
     (createdAt r) (updatedAt r).

Definition with_isActive (b : bool) (r : t) : t :=
  mk (id r) (name r) (description r) b (priority r) (permissions r)
     (createdAt r) (updatedAt r).

(** [this.permissions.some(permission => permission.name === permissionName)] *)
Definition hasPermission (this : t) (permissionName : string) : result bool :=
  match permissions this with
  | None => Throw (typeErrorReading "some")
  | Some ps =>
      Ok (existsb (fun permission => String.eqb (Permission.name permission) permissionName) ps)
  end.

(** [addPermission]: an absent collection becomes [[]] first; the
    permission is pushed unless one with the same id is found. *)
Definition addPermission (this : t) (permission : Permission.t) : t :=
  let ps := match permissions this with
            | None => []
            | Some ps => ps
            end in
  match List.find (fun p => String.eqb (Permission.id p) (Permission.id permission)) ps with
  | Some _ => with_permissions (Some ps) this
  | None => with_permissions (Some (ps ++ [permission])) this
  end.

(** [removePermission]: an absent collection is left absent. *)
Definition removePermission (this : t) (permissionId : string) : t :=
  match permissions this with
  | None => this
  | Some ps =>
      with_permissions
        (Some (List.filter (fun p => negb (String.eqb (Permission.id p) permissionId)) ps))
        this
  end.
End Role.

Module User.
Record t : Type := mk {
  id : string;
  email : string;
  firstName : string;
  lastName : string;
  password : option string;
  phone : option string;
  avatar : option string;
  isVerified : bool;
  isActive : bool;
  lastLoginAt : option Z;
  verificationToken : option string;
  resetPasswordToken : option string;
  resetPasswordExpires : option Z;
  roles : list Role.t;
  createdAt : Z;
  updatedAt : Z
}.

Definition with_password (pw : option string) (u : t) : t :=
  mk (id u) (email u) (firstName u) (lastName u) pw (phone u) (avatar u)
     (isVerified u) (isActive u) (lastLoginAt u) (verificationToken u)
     (resetPasswordToken u) (resetPasswordExpires u) (roles u)
     (createdAt u) (updatedAt u).

(** [this.roles.some(role => role.name === roleName)] *)
Definition hasRole (this : t) (roleName : string) : bool :=
  existsb (fun role => String.eqb (Role.name role) roleName) (roles this).

(** [this.roles.some(role => role.permissions.some(p => p.name === permissionName))] *)
Definition hasPermission (this : t) (permissionName : string) : result bool :=
  Js.some
    (fun role =>
       match Role.permissions role with
       | None => Throw (typeErrorReading "some")
       | Some ps =>
           Ok (existsb (fun permission => String.eqb (Permission.name permission) permissionName) ps)
       end)
    (roles this).

(** The [@BeforeInsert] / [@BeforeUpdate] hook.  [bcrypt.hash(data,
    rounds)] draws a fresh salt on every call; the library function and
    the salt it draws are explicit arguments here. *)
Definition hashPassword (bcrypt_hash : string -> nat -> string -> string)
    (salt : string) (this : t) : t :=
  match password this with
  | Some pw =>
      if negb (String.eqb pw "") && negb (startsWith "$2b$" pw) then
        let saltRounds := 12%nat in
        with_password (Some (bcrypt_hash pw saltRounds salt)) this
      else this
  | None => this
  end.
End User.

(** ** State and exceptions

    A computation reads and writes a state [S] and either returns or
    throws; [try_catch] keeps the writes made before the throw, as a
    JavaScript [try] block does. *)

Definition M (S A : Type) : Type := S -> result A * S.

Definition ret {S A} (a : A) : M S A := fun s => (Ok a, s).
Definition throw {S A} (e : Thrown) : M S A := fun s => (Throw e, s).
Definition bind {S A B} (m : M S A) (k : A -> M S B) : M S B :=
  fun s => match m s with
           | (Ok a, s') => k a s'
           | (Throw e, s') => (Throw e, s')
           end.
Definition try_catch {S A} (m : M S A) (handler : Thrown -> M S A) : M S A :=
  fun s => match m s with
           | (Ok a, s') => (Ok a, s')
           | (Throw e, s') => handler e s'
           end.
Definition get {S} : M S S := fun s => (Ok s, s).
Definition modify {S} (f : S -> S) : M S unit := fun s => (Ok tt, f s).
Definition lift {S A} (r : result A) : M S A := fun s => (r, s).

Declare Scope js_scope.
Delimit Scope js_scope with js.
Notation "x <- m ;; k" := (bind m (fun x => k))
  (at level 100, m at next level, right associativity) : js_scope.
Notation "m ;;; k" := (bind m (fun _ => k))
  (at level 100, right associativity) : js_scope.

(** ** The Express stack (models/User.ts, services/UserService.ts,
       middleware/auth.ts, middleware/admin.ts) *)

Record Notifications : Type := mkNotifications {
  notify_email : bool;
  notify_push : bool;
  notify_sms : bool
}.

Record Privacy : Type := mkPrivacy {
  profileVisible : bool;
  showEmail : bool
}.

Record Preferences : Type := mkPreferences {
  notifications : Notifications;
  privacy : Privacy
}.

(** A document of the Mongoose [User] model.  [password] is absent on a
    document fetched with [select('-password')].  The schema restricts
    [role] to 'user', 'admin' and 'moderator'; the middleware copies and
    compares it as a string. *)
Module IUser.
Record t : Type := mk {
  id : string;
  email : string;
  username : string;
  password : option string;
  firstName : string;
  lastName : string;
  avatar : option string;
  isVerified : bool;
  isActive : bool;
  role : string;
  createdAt : Z;
  updatedAt : Z;
  lastLoginAt : option Z;
  preferences : Preferences
}.

Definition set_password (pw : option string) (u : t) : t :=
  mk (id u) (email u) (username u) pw (firstName u) (lastName u)
     (avatar u) (isVerified u) (isActive u) (role u) (createdAt u)
     (updatedAt u) (lastLoginAt u) (preferences u).

Definition set_isActive (b : bool) (u : t) : t :=
  mk (id u) (email u) (username u) (password u) (firstName u) (lastName u)
     (avatar u) (isVerified u) b (role u) (createdAt u)
     (updatedAt u) (lastLoginAt u) (preferences u).

Definition set_updatedAt (now : Z) (u : t) : t :=
  mk (id u) (email u) (username u) (password u) (firstName u) (lastName u)
     (avatar u) (isVerified u) (isActive u) (role u) (createdAt u)
     now (lastLoginAt u) (preferences u).
End IUser.

(** The body of every response the middleware writes; [data] and
    [pagination] of [ApiResponse] are never set there. *)
Record ApiResponse : Type := mkApiResponse {
  success : bool;
  message : option string;
  errors : option (list string)
}.

(** [AuthRequest.user] *)
Record AuthUser : Type := mkAuthUser {
  auth_id : string;
  auth_email : string;
  auth_role : string
}.

(** The part of the request the middleware touches: the [Authorization]
    header it reads and the [user] property it writes. *)
Record AuthRequest : Type := mkAuthRequest {
  authorization : option string;
  user : option AuthUser
}.

(** The decoded token; [id] is the only property the middleware reads. *)
Record JwtPayload : Type := mkJwtPayload {
  jwt_id : string
}.

(** What one request does to the outside, in order of occurrence. *)
Inductive Event : Type :=
| FindById (id : string)
| FindByIdAndUpdate (id : string)
| Respond (status : Z) (body : ApiResponse)
| Next.

(** What a request handler can read and write: the request, the process
    environment, the [User] collection (by [_id]), the clock and the
    events so far (latest last). *)
Record Server : Type := mkServer {
  request : AuthRequest;
  env : gmap string string;
  users : gmap string IUser.t;
  clock : Z;
  trace : list Event
}.

(** The server after some more events. *)
Definition logged (events : list Event) (s : Server) : Server :=
  mkServer (request s) (env s) (users s) (clock s) (trace s ++ events).

(** The events a computation adds to the trace when run from [s]. *)
Definition events_of {A : Type} (m : M Server A) (s : Server) : list Event :=
  List.skipn (List.length (trace s)) (trace (snd (m s))).

Definition emit (e : Event) : M Server unit :=
  modify (logged [e]).

Definition set_req_user (u : AuthUser) : M Server unit :=
  modify (fun s => mkServer (mkAuthRequest (authorization (request s)) (Some u))
                            (env s) (users s) (clock s) (trace s)).

Definition put_users (m : gmap string IUser.t) : M Server unit :=
  modify (fun s => mkServer (request s) (env s) m (clock s) (trace s)).

(** [res.status(status).json(body)] *)
Definition respond (status : Z) (body : ApiResponse) : M Server unit :=
  emit (Respond status body).

(** [next()] *)
Definition next : M Server unit := emit Next.

Section Express.

Local Open Scope js_scope.

(** [jwt.verify(token, secret)]: returns the decoded payload or throws;
    whether a token has expired depends on the time of the call. *)
Variable jwt_verify : string -> string -> Z -> result JwtPayload.

(** The error the database driver raises for a query by this id, if
    any (a [CastError] for a string that is no ObjectId). *)
Variable queryError : string -> option Thrown.

(** [User.findById(id)] *)
Definition User_findById (id : string) : M Server (option IUser.t) :=
  emit (FindById id) ;;;
  match queryError id with
  | Some e => throw e
  | None => s <- get ;; ret (users s !! id)
  end.

(** [User.findByIdAndUpdate(id, { $set: ... }, { new: true })].  The
    schema is declared with [timestamps: true], so an update that finds
    its document also stamps [updatedAt]. *)
Definition User_findByIdAndUpdate (id : string) (set : IUser.t -> IUser.t)
  : M Server (option IUser.t) :=
  emit (FindByIdAndUpdate id) ;;;
  match queryError id with
  | Some e => throw e
  | None =>
      s <- get ;;
      match users s !! id with
      | None => ret None
      | Some doc =>
          let doc' := IUser.set_updatedAt (clock s) (set doc) in
          put_users (<[id := doc']> (users s)) ;;;
          ret (Some doc')
      end
  end.

(** [UserService.getUserById] *)
Definition getUserById (id : string) : M Server (option IUser.t) :=
  try_catch
    (found <- User_findById id ;;
     ret (IUser.set_password None <$> found))
    (fun error => throw (ErrorObj "Error" ("Failed to get user: " +:+ toString error))).

(** [UserService.deleteUser] ("Delete user (soft delete)") *)
Definition deleteUser (id : string) : M Server bool :=
  try_catch
    (result <- User_findByIdAndUpdate id (IUser.set_isActive false) ;;
     ret (match result with
          | Some _ => true
          | None => false
          end))
    (fun error => throw (ErrorObj "Error" ("Failed to delete user: " +:+ toString error))).

(** [req.header('Authorization')?.replace('Bearer ', '')] *)
Definition bearerToken (req : AuthRequest) : option string :=
  replace "Bearer " "" <$> authorization req.

Definition authMiddleware : M Server unit :=
  try_catch
    (s <- get ;;
     let token := bearerToken (request s) in
     match token with
     | Some tok =>
         if truthy token then
           let jwtSecret := env s !! "JWT_SECRET" in
           match jwtSecret with
           | Some secret =>
               if truthy jwtSecret then
                 decoded <- lift (jwt_verify tok secret (clock s)) ;;
                 found <- getUserById (jwt_id decoded) ;;
                 match found with
                 | Some u =>
                     if IUser.isActive u then
                       set_req_user (mkAuthUser (IUser.id u) (IUser.email u) (IUser.role u)) ;;;
                       next
                     else
                       respond 401 (mkApiResponse false (Some "Invalid token or user not found.") None)
                 | None =>
                     respond 401 (mkApiResponse false (Some "Invalid token or user not found.") None)
                 end
               else throw (ErrorObj "Error" "JWT_SECRET is not defined")
           | None => throw (ErrorObj "Error" "JWT_SECRET is not defined")
           end
         else
           respond 401 (mkApiResponse false (Some "Access denied. No token provided.") None)
     | None =>
         respond 401 (mkApiResponse false (Some "Access denied. No token provided.") None)
     end)
    (fun error =>
       respond 401 (mkApiResponse false (Some "Invalid token.") (Some [errorMessage error]))).

Definition adminMiddleware : M Server unit :=
  try_catch
    (s <- get ;;
     match user (request s) with
     | None =>
         respond 401 (mkApiResponse false (Some "Authentication required.") None)
     | Some u =>
         if negb (String.eqb (auth_role u) "admin") && negb (String.eqb (auth_role u) "moderator") then
           respond 403 (mkApiResponse false (Some "Access denied. Admin privileges required.") None)
         else next
     end)
    (fun error =>
       respond 500 (mkApiResponse false (Some "Internal server error.") (Some [errorMessage error]))).

End Express.

(** The three bodies [authMiddleware] answers with. *)
Definition noTokenBody : ApiResponse :=
  mkApiResponse false (Some "Access denied. No token provided.") None.

Definition notFoundBody : ApiResponse :=
  mkApiResponse false (Some "Invalid token or user not found.") None.

Definition invalidTokenBody (reason : string) : ApiResponse :=
  mkApiResponse false (Some "Invalid token.") (Some [reason]).

(** ** The NestJS stack (user.entity.ts, role.entity.ts, user.service.ts) *)

Module Nest.

Local Open Scope js_scope.

(** The relations [Role.users] and [Role.permissions] are not loaded by
    the service and are left out. *)
Record Role : Type := mkRole {
  role_id : string;
  role_name : string;
  role_description : option string;
  role_createdAt : Z;
  role_updatedAt : Z
}.

(** The entity has no [isActive] column.  [role] is a relation that
    [findOne] does not load unless asked to. *)
Record User : Type := mkUser {
  id : string;
  email : string;
  passwordHash : string;
  name : string;
  role : option Role;
  createdAt : Z;
  updatedAt : Z
}.

(** The rows of the [user] table behind [Repository<User>]. *)
Definition Repository : Type := list User.

(** [findOne({ where: { id } })] *)
Definition findOne_by_id (id' : string) : M Repository (option User) :=
  rows <- get ;; ret (List.find (fun row => String.eqb (id row) id') rows).

(** [remove(entity)]: deletes the row with the entity's primary key. *)
Definition remove (entity : User) : M Repository unit :=
  modify (List.filter (fun row => negb (String.eqb (id row) (id entity)))).

Definition getUserById (id' : string) : M Repository User :=
  found <- findOne_by_id id' ;;
  match found with
  | None => throw (ErrorObj "NotFoundException" "User not found")
  | Some user => ret user
  end.

Definition deleteUser (id' : string) : M Repository unit :=
  user <- getUserById id' ;;
  remove user.

End Nest.

(** ** Serialisation filters

    Each of the three works on the properties of an object, whatever
    their values are. *)

#[warnings="-register-all"]
Inductive JsValue : Type :=
| JsNull
| JsBool (b : bool)
| JsNumber (n : Z)
| JsString (s : string)
| JsDate (ms : Z)
| JsArray (items : list JsValue)
| JsObject (props : list (string * JsValue)).

(** [const { k1, ..., kn, ...rest } = obj]: the properties of [obj]
    other than [k1] ... [kn]. *)
Definition rest_without {V : Type} (keys : list string) (obj : gmap string V) : gmap string V :=
  foldr delete obj keys.

(** The [toJSON.transform] option of the Mongoose schema:
    [delete ret.password; return ret]. *)
Definition userSchema_toJSON_transform {V : Type} (ret : gmap string V) : gmap string V :=
  delete "password" ret.

(** [UserController.sanitizeUser] of the NestJS controller. *)
Definition sanitizeUser {V : Type} (user : gmap string V) : gmap string V :=
  rest_without ["passwordHash"] user.

Definition optional_prop (key : string) (v : option JsValue) : list (string * JsValue) :=
  match v with
  | Some x => [(key, x)]
  | None => []
  end.

Definition Permission_value (p : Permission.t) : JsValue :=
  JsObject
    ([("id", JsString (Permission.id p)); ("name", JsString (Permission.name p))]
     ++ optional_prop "description" (JsString <$> Permission.description p)
     ++ [("createdAt", JsDate (Permission.createdAt p));
         ("updatedAt", JsDate (Permission.updatedAt p))]).

Definition Role_value (r : Role.t) : JsValue :=
  JsObject
    ([("id", JsString (Role.id r)); ("name", JsString (Role.name r))]
     ++ optional_prop "description" (JsString <$> Role.description r)
     ++ [("isActive", JsBool (Role.isActive r)); ("priority", JsNumber (Role.priority r))]
     ++ optional_prop "permissions"
          ((fun ps => JsArray (Permission_value <$> ps)) <$> Role.permissions r)
     ++ [("createdAt", JsDate (Role.createdAt r));
         ("updatedAt", JsDate (Role.updatedAt r))]).

(** The own enumerable properties of a [User] entity instance. *)
Definition User_properties (u : User.t) : gmap string JsValue :=
  list_to_map
    ([("id", JsString (User.id u)); ("email", JsString (User.email u));
      ("firstName", JsString (User.firstName u));
      ("lastName", JsString (User.lastName u))]
     ++ optional_prop "password" (JsString <$> User.password u)
     ++ optional_prop "phone" (JsString <$> User.phone u)
     ++ optional_prop "avatar" (JsString <$> User.avatar u)
     ++ [("isVerified", JsBool (User.isVerified u));
         ("isActive", JsBool (User.isActive u))]
     ++ optional_prop "lastLoginAt" (JsDate <$> User.lastLoginAt u)
     ++ optional_prop "verificationToken" (JsString <$> User.verificationToken u)
     ++ optional_prop "resetPasswordToken" (JsString <$> User.resetPasswordToken u)
     ++ optional_prop "resetPasswordExpires" (JsDate <$> User.resetPasswordExpires u)
     ++ [("roles", JsArray (Role_value <$> User.roles u));
         ("createdAt", JsDate (User.createdAt u));
         ("updatedAt", JsDate (User.updatedAt u))]).

(** [User.toJSON]:
    [const { password, verificationToken, resetPasswordToken, ...result } = this] *)
Definition User_toJSON (this : User.t) : gmap string JsValue :=
  rest_without ["password"; "verificationToken"; "resetPasswordToken"]
               (User_properties this).

(** ** The effective permission set, as the specification words it *)

(** "An Identity's effective permission set = union of permissions of all
    its active roles": the names granted by the roles whose [isActive]
    flag is set. *)
Definition effectivePermissions_spec (u : User.t) : list string :=
  flat_map
    (fun r =>
       if Role.isActive r
       then Permission.name <$> default [] (Role.permissions r)
       else [])
    (User.roles u).

(** ** Sample data *)

Module Sample.

Definition manageUsers : Permission.t :=
  Permission.mk "p1" "users:manage" (Some "Create, edit and delete users") 0 0.

Definition readUsers : Permission.t :=
  Permission.mk "p2" "users:read" None 0 0.

(** A role that has been switched off but still lists a permission. *)
Definition retiredAdmin : Role.t :=
  Role.mk "r1" "admin" None false 10 (Some [manageUsers]) 0 0.

Definition capitalAdmin : Role.t :=
  Role.mk "r2" "Admin" None true 10 (Some [manageUsers; readUsers]) 0 0.

Definition reader : Role.t :=
  Role.mk "r3" "reader" None true 1 (Some [readUsers]) 0 0.

(** A role as [new Role()] leaves it: no permission collection yet. *)
Definition blank : Role.t :=
  Role.mk "r4" "blank" None true 0 None 0 0.

Definition account (pw : option string) (rs : list Role.t) : User.t :=
  User.mk "u1" "john.doe@example.com" "John" "Doe" pw None None
          true true None (Some "verify-me") None None rs 0 0.

(** A stand-in for [bcrypt.hash] with the shape of the library's output. *)
Definition bcrypt_hash (data : string) (rounds : nat) (salt : string) : string :=
  "$2b$12$" +:+ salt +:+ String.string_of_list_ascii (List.rev (String.list_ascii_of_string data)).

Definition defaults : Preferences :=
  mkPreferences (mkNotifications true true false) (mkPrivacy true false).

(** An administrator whose account has been soft-deleted. *)
Definition alice : IUser.t :=
  IUser.mk "64b7f0a1c2d3e4f501234567" "alice@example.com" "alice"
           (Some "$2b$12$abcdefghijklmnopqrstuv") "Alice" "Doe" None
           true false "admin" 100 100 None defaults.

Definition bob : IUser.t :=
  IUser.mk "64b7f0a1c2d3e4f501234568" "bob@example.com" "bob"
           (Some "$2b$12$zyxwvutsrqponmlkjihgfe") "Bob" "Roe" None
           true true "user" 200 200 None defaults.

(** A stand-in for [jwt.verify]: a token ["tok:<id>"] is accepted under
    the secret it was issued with. *)
Definition jwt_verify (token secret : string) (now : Z) : result JwtPayload :=
  if String.eqb secret "s3cret" then
    if startsWith "tok:" token then Ok (mkJwtPayload (slice 4 token))
    else Throw (ErrorObj "JsonWebTokenError" "jwt malformed")
  else Throw (ErrorObj "JsonWebTokenError" "invalid signature").

(** Ids of 24 characters are taken to be ObjectIds. *)
Definition queryError (id : string) : option Thrown :=
  if Nat.eqb (String.length id) 24 then None
  else Some (ErrorObj "CastError" "Cast to ObjectId failed").

Definition server (header : option string) (secret : option string) : Server :=
  mkServer (mkAuthRequest header None)
           (match secret with
            | Some v => {[ "JWT_SECRET" := v ]}
            | None => ∅
            end)
           (<[ IUser.id alice := alice ]> (<[ IUser.id bob := bob ]> ∅))
           5000 [].

Definition carol : Nest.User :=
  Nest.mkUser "c0ffee" "carol@example.com" "$2b$10$0123456789abcdefghijkl" "Carol" None 300 300.

End Sample.

(** The ids of the permissions a role lists, in order. *)
Definition permissionIds (r : Role.t) : list string :=
  Permission.id <$> default [] (Role.permissions r).

(** ** Routes (routes/userRoutes.ts)

    Express runs the handlers of a route in the order they are listed; a
    handler passes control on by calling [next()], and the handlers after
    one that did not are never run. *)

Definition calledNext (events : list Event) : bool :=
  existsb (fun e => match e with
                    | Next => true
                    | _ => false
                    end) events.

Fixpoint route (stack : list (M Server unit)) : M Server unit :=
  match stack with
  | [] => ret tt
  | handler :: rest =>
      fun s =>
        match handler s with
        | (Ok _, s') =>
            if calledNext (events_of handler s) then route rest s' else (Ok tt, s')
        | (Throw e, s') => (Throw e, s')
        end
  end.

Section Routes.

Variable jwt_verify : string -> string -> Z -> result JwtPayload.
Variable queryError : string -> option Thrown.

(** [router.get('/users/profile', authMiddleware, handler)] and its
    siblings under "Protected routes". *)
Definition profileRoute (handler : M Server unit) : M Server unit :=
  route [authMiddleware jwt_verify queryError; handler].

(** [router.get('/users', authMiddleware, adminMiddleware, handler)] and
    its siblings under "Admin routes". *)
Definition adminRoute (handler : M Server unit) : M Server unit :=
  route [authMiddleware jwt_verify queryError; adminMiddleware; handler].

End Routes.

(** The server once [authMiddleware] has attached the identity of [u]. *)
Definition attach (u : IUser.t) (s : Server) : Server :=
  mkServer (mkAuthRequest (authorization (request s))
                          (Some (mkAuthUser (IUser.id u) (IUser.email u) (IUser.role u))))
           (env s) (users s) (clock s) (trace s).

(** The shapes a run of [authMiddleware] can have. *)
Inductive AuthRun (s : Server) : result unit * Server -> Prop :=
| Denied body :
    AuthRun s (Ok tt, logged [Respond 401 body] s)
| DeniedAfterLookup id body :
    AuthRun s (Ok tt, logged [FindById id; Respond 401 body] s)
| Accepted id u :
    users s !! id = Some u -> IUser.isActive u = true ->
    AuthRun s (Ok tt, logged [FindById id; Next] (attach u s)).

(** ** More of the Express [UserService] *)

Definition set_lastLoginAt (t : option Z) (u : IUser.t) : IUser.t :=
  IUser.mk (IUser.id u) (IUser.email u) (IUser.username u) (IUser.password u)
           (IUser.firstName u) (IUser.lastName u) (IUser.avatar u)
           (IUser.isVerified u) (IUser.isActive u) (IUser.role u)
           (IUser.createdAt u) (IUser.updatedAt u) t (IUser.preferences u).

(** What [getUserStats] returns (the [_id: null] of the group apart). *)
Record UserStats : Type := mkUserStats {
  totalUsers : nat;
  activeUsers : nat;
  verifiedUsers : nat;
  adminUsers : nat
}.

(** [{ $sum: { $cond: [cond, 1, 0] } }] over the collection. *)
Definition countWhere (cond : IUser.t -> bool) (docs : gmap string IUser.t) : nat :=
  size (filter (fun entry => cond entry.2 = true) docs).

Section ExpressService.

Local Open Scope js_scope.

Variable queryError : string -> option Thrown.

(** [bcrypt.hash(data, rounds)], with the salt it draws, and
    [bcrypt.compare(data, hash)] of bcryptjs. *)
Variable bcrypt_hash : string -> nat -> string -> string.
Variable bcrypt_compare : string -> option string -> result bool.

(** [new NotFoundError(message)] of utils/errors, which is not among the
    sources. *)
Variable NotFoundError : string -> Thrown.

(** The error the driver raises for the aggregation, if any. *)
Variable aggregateError : option Thrown.

(** [User.findByIdAndUpdate(id, { $set: ... })] without [new: true]:
    the document as it was before the update is returned. *)
Definition User_findByIdAndUpdate_old (id : string) (set : IUser.t -> IUser.t)
  : M Server (option IUser.t) :=
  emit (FindByIdAndUpdate id) ;;;
  match queryError id with
  | Some e => throw e
  | None =>
      s <- get ;;
      match users s !! id with
      | None => ret None
      | Some doc =>
          put_users (<[id := IUser.set_updatedAt (clock s) (set doc)]> (users s)) ;;;
          ret (Some doc)
      end
  end.

(** [UserService.verifyPassword].  The schema does not hide [password],
    so [select('+password')] changes nothing. *)
Definition verifyPassword (userId password : string) : M Server bool :=
  try_catch
    (found <- User_findById queryError userId ;;
     match found with
     | None => throw (NotFoundError "User not found")
     | Some u => lift (bcrypt_compare password (IUser.password u))
     end)
    (fun error => throw (ErrorObj "Error" ("Failed to verify password: " +:+ toString error))).

(** [UserService.updatePassword] *)
Definition updatePassword (salt userId newPassword : string) : M Server bool :=
  try_catch
    (let saltRounds := 12%nat in
     let hashedPassword := bcrypt_hash newPassword saltRounds salt in
     result <- User_findByIdAndUpdate_old userId (IUser.set_password (Some hashedPassword)) ;;
     ret (match result with
          | Some _ => true
          | None => false
          end))
    (fun error => throw (ErrorObj "Error" ("Failed to update password: " +:+ toString error))).

(** [UserService.updateLastLogin] *)
Definition updateLastLogin (userId : string) : M Server unit :=
  try_catch
    (s <- get ;;
     User_findByIdAndUpdate_old userId (set_lastLoginAt (Some (clock s))) ;;;
     ret tt)
    (fun error => throw (ErrorObj "Error" ("Failed to update last login: " +:+ toString error))).

(** [User.aggregate([{ $group: { _id: null, ... } }])]: one group when
    the collection has documents, none when it is empty. *)
Definition User_aggregate_stats : M Server (list UserStats) :=
  match aggregateError with
  | Some e => throw e
  | None =>
      s <- get ;;
      ret (if Nat.eqb (size (users s)) 0 then []
           else [mkUserStats
                   (size (users s))
                   (countWhere IUser.isActive (users s))
                   (countWhere IUser.isVerified (users s))
                   (countWhere (fun u => String.eqb (IUser.role u) "admin") (users s))])
  end.

(** [UserService.getUserStats]: [stats[0] || { totalUsers: 0, ... }] *)
Definition getUserStats : M Server UserStats :=
  try_catch
    (stats <- User_aggregate_stats ;;
     ret (match stats with
          | group :: _ => group
          | [] => mkUserStats 0 0 0 0
          end))
    (fun error => throw (ErrorObj "Error" ("Failed to get user stats: " +:+ toString error))).

End ExpressService.

(** ** More of the NestJS stack (user.service.ts, user.controller.ts,
       user.dto.ts) *)

Module NestApi.

Local Open Scope js_scope.

Record CreateUserDto : Type := mkCreateUserDto {
  dto_email : string;
  dto_password : string;
  dto_name : string
}.

(** [findOne({ where: { email } })] *)
Definition findOne_by_email (email' : string) : M Nest.Repository (option Nest.User) :=
  rows <- get ;; ret (List.find (fun row => String.eqb (Nest.email row) email') rows).

(** [save(user)] for an entity made with [new User()]: a row is
    inserted; the database supplies the id, which is fresh, and both
    timestamps.  [role] has not been set. *)
Definition save_new (newId : string) (now : Z) (email' passwordHash' name' : string)
  : M Nest.Repository Nest.User :=
  let user := Nest.mkUser newId email' passwordHash' name' None now now in
  modify (fun rows => rows ++ [user]) ;;;
  ret user.

(** [UserService.createUser] *)
Definition createUser (bcrypt_hash : string -> nat -> string -> string)
    (salt newId : string) (now : Z) (userData : CreateUserDto)
  : M Nest.Repository Nest.User :=
  existingUser <- findOne_by_email (dto_email userData) ;;
  match existingUser with
  | Some _ => throw (ErrorObj "ConflictException" "User already exists")
  | None =>
      save_new newId now (dto_email userData)
               (bcrypt_hash (dto_password userData) 10%nat salt)
               (dto_name userData)
  end.

(** The own properties of a [User] entity of this stack. *)
Definition User_properties (u : Nest.User) : gmap string JsValue :=
  list_to_map
    ([("id", JsString (Nest.id u)); ("email", JsString (Nest.email u));
      ("passwordHash", JsString (Nest.passwordHash u));
      ("name", JsString (Nest.name u))]
     ++ optional_prop "role"
          ((fun r => JsObject
                       ([("id", JsString (Nest.role_id r));
                         ("name", JsString (Nest.role_name r))]
                        ++ optional_prop "description" (JsString <$> Nest.role_description r)
                        ++ [("createdAt", JsDate (Nest.role_createdAt r));
                            ("updatedAt", JsDate (Nest.role_updatedAt r))]))
             <$> Nest.role u)
     ++ [("createdAt", JsDate (Nest.createdAt u));
         ("updatedAt", JsDate (Nest.updatedAt u))]).

(** What a handler of [UserController] hands to the framework: a
    response it wrote, or the [HttpException] it threw. *)
Inductive Reply : Type :=
| Json (status : Z) (success : bool) (data : option (gmap string JsValue))
       (message : option string)
| HttpException (response : option string) (status : Z).

(** [error.message] of a caught value: [undefined] unless it is an error. *)
Definition caughtMessage (error : Thrown) : option string :=
  match error with
  | ErrorObj _ m => Some m
  | NonError _ => None
  end.

(** [UserController.createUser] *)
Definition controller_createUser (bcrypt_hash : string -> nat -> string -> string)
    (salt newId : string) (now : Z) (userData : CreateUserDto)
  : M Nest.Repository Reply :=
  try_catch
    (user <- createUser bcrypt_hash salt newId now userData ;;
     ret (Json 201 true (Some (sanitizeUser (User_properties user))) None))
    (fun error => ret (HttpException (caughtMessage error) 400)).

(** [UserController.getUser] *)
Definition controller_getUser (id : string) : M Nest.Repository Reply :=
  try_catch
    (user <- Nest.getUserById id ;;
     ret (Json 200 true (Some (sanitizeUser (User_properties user))) None))
    (fun error => ret (HttpException (caughtMessage error) 404)).

(** [UserController.deleteUser] *)
Definition controller_deleteUser (id : string) : M Nest.Repository Reply :=
  try_catch
    (Nest.deleteUser id ;;;
     ret (Json 200 true None (Some "User deleted successfully")))
    (fun error => ret (HttpException (caughtMessage error) 400)).

End NestApi.

(** ** More sample data *)

Module Fixture.

Definition dave : NestApi.CreateUserDto :=
  NestApi.mkCreateUserDto "test@example.com" "password123" "Test User".

Definition NotFoundError (message : string) : Thrown :=
  ErrorObj "NotFoundError" message.

(** A second, saltless pair of stand-ins for [bcrypt.hash] and
    [bcrypt.compare]. *)
Definition plain_hash (data : string) (rounds : nat) (salt : string) : string :=
  "$2b$" +:+ data.

Definition plain_compare (data : string) (hash : option string) : result bool :=
  match hash with
  | Some h => Ok (String.eqb h ("$2b$" +:+ data))
  | None => Throw (ErrorObj "Error" "Illegal arguments: string, undefined")
  end.

(** A handler that answers 200. *)
Definition ok_handler : M Server unit :=
  respond 200 (mkApiResponse true None None).

(** An active moderator. *)
Definition erin : IUser.t :=
  IUser.mk "64b7f0a1c2d3e4f501234569" "erin@example.com" "erin"
           (Some "$2b$12$mmmmmmmmmmmmmmmmmmmmmm") "Erin" "Poe" None
           true true "moderator" 300 300 None Sample.defaults.

Definition server (header : option string) : Server :=
  mkServer (mkAuthRequest header None)
           {[ "JWT_SECRET" := "s3cret" ]}
           (<[ IUser.id erin := erin ]> (users (Sample.server None None)))
           7000 [].

End Fixture.

(** * Properties *)

(** ** Roles and permissions *)

Section RolesAndPermissions.

Implicit Types (u : User.t) (r : Role.t) (p q : Permission.t).

Lemma with_permissions_same r ps :
  Role.permissions r = ps -> Role.with_permissions ps r = r.
Proof. destruct r; simpl; intros <-; reflexivity. Qed.

Lemma find_same_id_None ps pid :
  List.find (fun q => String.eqb (Permission.id q) pid) ps = None <->
  (forall q, In q ps -> Permission.id q <> pid).
Proof.
  induction ps as [|q0 ps IH]; simpl.
  - split; [intros _ q [] | reflexivity].
  - destruct (String.eqb_spec (Permission.id q0) pid) as [Heq|Hne].
    + split; [discriminate|]. intros H. exfalso. apply (H q0); auto.
    + rewrite IH. split.
      * intros H q [<-|Hin]; auto.
      * intros H q Hin. apply H. auto.
Qed.

Lemma filter_other_ids_id ps pid :
  (forall q, In q ps -> Permission.id q <> pid) ->
  List.filter (fun q => negb (String.eqb (Permission.id q) pid)) ps = ps.
Proof.
  induction ps as [|q0 ps IH]; simpl; intros H; [reflexivity|].
  destruct (String.eqb_spec (Permission.id q0) pid) as [Heq|Hne]; simpl.
  - exfalso. apply (H q0); auto.
  - f_equal. apply IH. intros q Hin. apply H. auto.
Qed.

Lemma filter_other_ids_twice ps pid :
  let keep := fun q => negb (String.eqb (Permission.id q) pid) in
  List.filter keep (List.filter keep ps) = List.filter keep ps.
Proof.
  intros keep. apply filter_other_ids_id.
  intros q Hin Heq. apply filter_In in Hin as [_ Hkeep].
  unfold keep in Hkeep. rewrite <- Heq, String.eqb_refl in Hkeep. discriminate.
Qed.

(** Adding a permission whose id is already listed changes nothing. *)
Lemma addPermission_present r p ps :
  Role.permissions r = Some ps ->
  (exists q, In q ps /\ Permission.id q = Permission.id p) ->
  Role.addPermission r p = r.
Proof.
  intros Hps (q & Hin & Hid). unfold Role.addPermission. rewrite Hps.
  destruct (List.find _ ps) eqn:Hfind.
  - apply with_permissions_same, Hps.
  - exfalso. rewrite find_same_id_None in Hfind. exact (Hfind q Hin Hid).
Qed.

(** After [addPermission r p], some listed permission has the id of [p]. *)
Lemma addPermission_lists_id r p :
  exists ps, Role.permissions (Role.addPermission r p) = Some ps /\
             exists q, In q ps /\ Permission.id q = Permission.id p.
Proof.
  unfold Role.addPermission.
  set (ps := match Role.permissions r with Some ps => ps | None => [] end).
  destruct (List.find _ ps) as [q|] eqn:Hfind; destruct r; simpl.
  - exists ps. split; [reflexivity|]. exists q.
    apply find_some in Hfind as [Hin Heq]. split; [exact Hin|].
    apply String.eqb_eq, Heq.
  - exists (ps ++ [p]). split; [reflexivity|]. exists p.
    split; [apply in_or_app; right; left|]; reflexivity.
Qed.

Lemma removePermission_absent r pid :
  (forall ps q, Role.permissions r = Some ps -> In q ps -> Permission.id q <> pid) ->
  Role.removePermission r pid = r.
Proof.
  intros H. unfold Role.removePermission.
  destruct (Role.permissions r) as [ps|] eqn:Hps; [|reflexivity].
  apply with_permissions_same. rewrite Hps. f_equal. symmetry.
  apply filter_other_ids_id. intros q Hin. exact (H ps q eq_refl Hin).
Qed.

(** The callback of [some] in [User.hasPermission], for a role whose
    collection is loaded. *)
Lemma some_loaded_roles (rs : list Role.t) (name : string) :
  Forall (fun r => Role.permissions r <> None) rs ->
  Js.some
    (fun role =>
       match Role.permissions role with
       | None => Throw (typeErrorReading "some")
       | Some ps => Ok (existsb (fun perm => String.eqb (Permission.name perm) name) ps)
       end) rs
  = Ok (existsb
          (fun role =>
             existsb (fun perm => String.eqb (Permission.name perm) name)
                     (default [] (Role.permissions role))) rs).
Proof.
  induction 1 as [|r rs Hr _ IH]; simpl; [reflexivity|].
  destruct (Role.permissions r) as [ps|]; [|contradiction]. simpl.
  destruct (existsb _ ps); [reflexivity | exact IH].
Qed.

(** The [isActive] flag of a role plays no part in [hasPermission]. *)
Lemma hasPermission_ignores_isActive u name (flag : Role.t -> bool) :
  User.hasPermission
    (User.mk (User.id u) (User.email u) (User.firstName u) (User.lastName u)
             (User.password u) (User.phone u) (User.avatar u) (User.isVerified u)
             (User.isActive u) (User.lastLoginAt u) (User.verificationToken u)
             (User.resetPasswordToken u) (User.resetPasswordExpires u)
             ((fun r => Role.with_isActive (flag r) r) <$> User.roles u)
             (User.createdAt u) (User.updatedAt u)) name
  = User.hasPermission u name.
Proof.
  unfold User.hasPermission; simpl.
  induction (User.roles u) as [|r rs IH]; simpl; [reflexivity|].
  destruct (Role.permissions r) as [ps|]; [|reflexivity].
  destruct (existsb _ ps); [reflexivity | exact IH].
Qed.

(** [User.hasPermission] asks each role what [Role.hasPermission] asks. *)
Lemma hasPermission_through_roles u name :
  User.hasPermission u name
  = Js.some (fun role => Role.hasPermission role name) (User.roles u).
Proof. reflexivity. Qed.

(** A role without a permission collection makes the scan throw, unless
    an earlier role already granted the permission. *)
Example hasPermission_blank_role :
  User.hasPermission (Sample.account None [Sample.blank; Sample.reader]) "users:read"
  = Throw (typeErrorReading "some")
  /\ User.hasPermission (Sample.account None [Sample.reader; Sample.blank]) "users:read"
     = Ok true.
Proof. split; reflexivity. Qed.

End RolesAndPermissions.

(** C4. [hasRole(name)] is true exactly when some attached role is named
    [name], compared as strings character by character; an identity whose
    only role is named "Admin" does not have the role "admin". *)
Theorem hasRole_exact_name :
  (forall (u : User.t) (roleName : string),
      User.hasRole u roleName = true <->
      exists role, In role (User.roles u) /\ Role.name role = roleName)
  /\ (forall (u : User.t) (role : Role.t),
         User.roles u = [role] -> Role.name role = "Admin" ->
         User.hasRole u "admin" = false).
Proof.
  split.
  - intros u roleName. unfold User.hasRole. rewrite existsb_exists.
    split; intros (role & Hin & H); exists role; split; auto;
      apply String.eqb_eq; exact H.
  - intros u role Hroles Hname. unfold User.hasRole.
    rewrite Hroles; simpl. rewrite Hname. reflexivity.
Qed.

Lemma hasRole_exact_name_witness :
  User.hasRole (Sample.account None [Sample.capitalAdmin]) "admin" = false.
Proof.
  apply (proj2 hasRole_exact_name _ Sample.capitalAdmin); reflexivity.
Defined.

(** C2, as the specification states it, fails: a permission that only a
    role with [isActive = false] lists is granted by [hasPermission],
    although it is not in the effective permission set. *)
Lemma hasPermission_inactive_role_counterexample :
  ~ (User.hasPermission (Sample.account None [Sample.retiredAdmin]) "users:manage" = Ok true
     <-> In "users:manage" (effectivePermissions_spec (Sample.account None [Sample.retiredAdmin]))).
Proof.
  intros [Hgrant _]. exact (Hgrant eq_refl).
Qed.

(** C2, amended. For an identity whose roles all carry a permission
    collection, [hasPermission(p)] returns, and returns true exactly when
    some attached role, active or not, lists a permission named [p]. *)
Theorem hasPermission_any_attached_role (u : User.t) (p : string) :
  Forall (fun r => Role.permissions r <> None) (User.roles u) ->
  exists b,
    User.hasPermission u p = Ok b /\
    (b = true <->
     exists role ps perm,
       In role (User.roles u) /\ Role.permissions role = Some ps /\
       In perm ps /\ Permission.name perm = p).
Proof.
  intros Hloaded. eexists. split.
  - unfold User.hasPermission. apply some_loaded_roles, Hloaded.
  - rewrite existsb_exists. split.
    + intros (role & Hin & Hex). apply existsb_exists in Hex as (perm & Hperm & Hname).
      rewrite Forall_forall in Hloaded. specialize (Hloaded role).
      destruct (Role.permissions role) as [ps|] eqn:Hps.
      * exists role, ps, perm. repeat split; auto. apply String.eqb_eq, Hname.
      * destruct Hperm.
    + intros (role & ps & perm & Hin & Hps & Hperm & Hname).
      exists role. split; [exact Hin|]. rewrite Hps. simpl.
      apply existsb_exists. exists perm. split; [exact Hperm|].
      apply String.eqb_eq, Hname.
Qed.

Lemma hasPermission_any_attached_role_witness :
  exists b,
    User.hasPermission (Sample.account None [Sample.reader; Sample.retiredAdmin]) "users:manage" = Ok b /\
    (b = true <->
     exists role ps perm,
       In role [Sample.reader; Sample.retiredAdmin] /\ Role.permissions role = Some ps /\
       In perm ps /\ Permission.name perm = "users:manage").
Proof.
  apply (hasPermission_any_attached_role
           (Sample.account None [Sample.reader; Sample.retiredAdmin]) "users:manage").
  simpl. repeat constructor; discriminate.
Defined.

(** C5. [addPermission] and [removePermission] are idempotent: adding a
    permission whose id is already listed leaves the role as it is, so
    does removing an id that is not listed, and doing either twice is
    doing it once. *)
Theorem permission_mutations_idempotent :
  (forall (r : Role.t) (p : Permission.t) (ps : list Permission.t),
      Role.permissions r = Some ps ->
      (exists q, In q ps /\ Permission.id q = Permission.id p) ->
      Role.addPermission r p = r)
  /\ (forall (r : Role.t) (permissionId : string),
         (forall ps q, Role.permissions r = Some ps -> In q ps ->
                       Permission.id q <> permissionId) ->
         Role.removePermission r permissionId = r)
  /\ (forall (r : Role.t) (p : Permission.t),
         Role.addPermission (Role.addPermission r p) p = Role.addPermission r p)
  /\ (forall (r : Role.t) (permissionId : string),
         Role.removePermission (Role.removePermission r permissionId) permissionId
         = Role.removePermission r permissionId).
Proof.
  repeat split.
  - intros r p ps Hps Hq. exact (addPermission_present r p ps Hps Hq).
  - intros r pid H. exact (removePermission_absent r pid H).
  - intros r p. destruct (addPermission_lists_id r p) as (ps & Hps & Hq).
    exact (addPermission_present _ p ps Hps Hq).
  - intros r pid. unfold Role.removePermission.
    destruct (Role.permissions r) as [ps|] eqn:Hps.
    + destruct r; simpl in *. rewrite filter_other_ids_twice. reflexivity.
    + rewrite Hps. reflexivity.
Qed.

Lemma permission_mutations_idempotent_witness :
  Role.addPermission Sample.capitalAdmin Sample.readUsers = Sample.capitalAdmin
  /\ Role.removePermission Sample.reader "p1" = Sample.reader.
Proof.
  split.
  - apply (proj1 permission_mutations_idempotent Sample.capitalAdmin Sample.readUsers
                 [Sample.manageUsers; Sample.readUsers] eq_refl).
    exists Sample.readUsers. split; [right; left|]; reflexivity.
  - apply (proj1 (proj2 permission_mutations_idempotent) Sample.reader "p1").
    intros ps q Hps Hin. injection Hps as <-.
    destruct Hin as [<-|[]]. discriminate.
Defined.

(** ** The middleware *)

Section Middleware.

Variable jwt_verify : string -> string -> Z -> result JwtPayload.
Variable queryError : string -> option Thrown.

Lemma logged_logged evs evs' s :
  logged evs' (logged evs s) = logged (evs ++ evs') s.
Proof. unfold logged; simpl. rewrite <- app_assoc. reflexivity. Qed.

(** A lookup that finds a document, seen from [getUserById]. *)
Lemma getUserById_found id s u :
  queryError id = None -> users s !! id = Some u ->
  getUserById queryError id s
  = (Ok (Some (IUser.set_password None u)), logged [FindById id] s).
Proof.
  intros Hq Hu. unfold getUserById, try_catch, User_findById, bind, emit, modify, get, ret.
  rewrite Hq. simpl. rewrite Hu. reflexivity.
Qed.

(** The run of [authMiddleware] up to the token check. *)
Lemma authMiddleware_no_token_run s :
  truthy (bearerToken (request s)) = false ->
  authMiddleware jwt_verify queryError s = (Ok tt, logged [Respond 401 noTokenBody] s).
Proof.
  intros Hfalsy. unfold authMiddleware, try_catch, bind, get.
  destruct (bearerToken (request s)) as [tok|]; [|reflexivity].
  rewrite Hfalsy. reflexivity.
Qed.

(** Unfolding a run of [authMiddleware] down to the tests it makes. *)
Ltac auth_unfold :=
  unfold authMiddleware, getUserById, User_findById, try_catch, bind, get,
    lift, throw, ret, respond, next, emit, set_req_user, modify;
  simpl.

(** Closes a branch of the run whose events hold no [Next]. *)
Ltac no_next :=
  unfold logged; simpl; rewrite <- ?app_assoc, drop_app_length; simpl;
  intros Hin; exfalso; intuition discriminate.

(** [authMiddleware] handles every exception itself. *)
Lemma authMiddleware_returns s :
  fst (authMiddleware jwt_verify queryError s) = Ok tt.
Proof.
  auth_unfold.
  destruct (bearerToken (request s)) as [tok|]; simpl; [|reflexivity].
  destruct (negb (String.eqb tok "")); simpl; [|reflexivity].
  destruct (env s !! "JWT_SECRET") as [secret|]; simpl; [|reflexivity].
  destruct (negb (String.eqb secret "")); simpl; [|reflexivity].
  destruct (jwt_verify tok secret (clock s)) as [decoded|e]; simpl; [|reflexivity].
  destruct (queryError (jwt_id decoded)); simpl; [reflexivity|].
  destruct (users s !! jwt_id decoded) as [u|]; simpl; [|reflexivity].
  destruct (IUser.isActive u); reflexivity.
Qed.

(** [next] is reached only with a stored, active identity, which is the
    one attached to the request. *)
Lemma authMiddleware_next_only_active s :
  In Next (events_of (authMiddleware jwt_verify queryError) s) ->
  exists id u,
    users s !! id = Some u /\ IUser.isActive u = true /\
    user (request (snd (authMiddleware jwt_verify queryError s)))
    = Some (mkAuthUser (IUser.id u) (IUser.email u) (IUser.role u)).
Proof.
  unfold events_of. auth_unfold.
  destruct (bearerToken (request s)) as [tok|]; simpl; [|no_next].
  destruct (negb (String.eqb tok "")); simpl; [|no_next].
  destruct (env s !! "JWT_SECRET") as [secret|]; simpl; [|no_next].
  destruct (negb (String.eqb secret "")); simpl; [|no_next].
  destruct (jwt_verify tok secret (clock s)) as [decoded|e]; simpl; [|no_next].
  destruct (queryError (jwt_id decoded)); simpl; [no_next|].
  destruct (users s !! jwt_id decoded) as [u|] eqn:Hu; simpl; [|no_next].
  destruct (IUser.isActive u) eqn:Hactive; simpl; [|no_next].
  intros _. exists (jwt_id decoded), u. repeat split; assumption.
Qed.

End Middleware.

(** The header forms of [bearerToken]. *)
Example bearerToken_forms :
  bearerToken (mkAuthRequest None None) = None
  /\ bearerToken (mkAuthRequest (Some "Bearer abc.def.ghi") None) = Some "abc.def.ghi"
  /\ bearerToken (mkAuthRequest (Some "Bearer ") None) = Some ""
  /\ bearerToken (mkAuthRequest (Some "abc.def.ghi") None) = Some "abc.def.ghi"
  /\ bearerToken (mkAuthRequest (Some "Token Bearer x Bearer y") None) = Some "Token x Bearer y".
Proof. repeat split. Qed.

(** C1. When the token of a request verifies and names a stored identity
    whose [isActive] flag is false, [authMiddleware] answers 401, does not
    call [next] and leaves the request without an identity attached. *)
Theorem authMiddleware_rejects_inactive
    (jwt_verify : string -> string -> Z -> result JwtPayload)
    (queryError : string -> option Thrown)
    (s : Server) (token secret : string) (decoded : JwtPayload) (u : IUser.t) :
  bearerToken (request s) = Some token ->
  truthy (Some token) = true ->
  env s !! "JWT_SECRET" = Some secret ->
  truthy (Some secret) = true ->
  jwt_verify token secret (clock s) = Ok decoded ->
  queryError (jwt_id decoded) = None ->
  users s !! jwt_id decoded = Some u ->
  IUser.isActive u = false ->
  authMiddleware jwt_verify queryError s
  = (Ok tt, logged [FindById (jwt_id decoded); Respond 401 notFoundBody] s).
Proof.
  intros Htok Htruthy Hsecret Hstruthy Hverify Hq Hu Hinactive.
  unfold authMiddleware, try_catch, bind at 1, get.
  rewrite Htok, Htruthy, Hsecret, Hstruthy.
  unfold bind at 1, lift. rewrite Hverify.
  unfold bind at 1. rewrite (getUserById_found queryError _ _ u Hq Hu).
  simpl. rewrite Hinactive.
  unfold respond, emit, modify. rewrite logged_logged. reflexivity.
Qed.

Lemma authMiddleware_rejects_inactive_witness :
  authMiddleware Sample.jwt_verify Sample.queryError
    (Sample.server (Some "Bearer tok:64b7f0a1c2d3e4f501234567") (Some "s3cret"))
  = (Ok tt,
     logged [FindById "64b7f0a1c2d3e4f501234567"; Respond 401 notFoundBody]
            (Sample.server (Some "Bearer tok:64b7f0a1c2d3e4f501234567") (Some "s3cret"))).
Proof.
  apply (authMiddleware_rejects_inactive Sample.jwt_verify Sample.queryError
           (Sample.server (Some "Bearer tok:64b7f0a1c2d3e4f501234567") (Some "s3cret"))
           "tok:64b7f0a1c2d3e4f501234567" "s3cret"
           (mkJwtPayload "64b7f0a1c2d3e4f501234567") Sample.alice);
    vm_compute; reflexivity.
Defined.

(** C3. [adminMiddleware] decides by three cases that cover every
    request: no identity attached, 401; an identity whose role is neither
    "admin" nor "moderator", 403; an identity whose role is one of the two
    names, [next]. *)
Theorem adminMiddleware_cases (s : Server) :
  (user (request s) = None ->
   adminMiddleware s
   = (Ok tt, logged [Respond 401 (mkApiResponse false (Some "Authentication required.") None)] s))
  /\ (forall u, user (request s) = Some u ->
        auth_role u <> "admin" -> auth_role u <> "moderator" ->
        adminMiddleware s
        = (Ok tt, logged [Respond 403 (mkApiResponse false
                                         (Some "Access denied. Admin privileges required.") None)] s))
  /\ (forall u, user (request s) = Some u ->
        auth_role u = "admin" \/ auth_role u = "moderator" ->
        adminMiddleware s = (Ok tt, logged [Next] s))
  /\ (user (request s) = None
      \/ (exists u, user (request s) = Some u /\
                    auth_role u <> "admin" /\ auth_role u <> "moderator")
      \/ (exists u, user (request s) = Some u /\
                    (auth_role u = "admin" \/ auth_role u = "moderator"))).
Proof.
  unfold adminMiddleware, try_catch, bind, get.
  repeat split.
  - intros ->. reflexivity.
  - intros u -> Hadmin Hmod.
    apply String.eqb_neq in Hadmin, Hmod. rewrite Hadmin, Hmod. reflexivity.
  - intros u -> [H|H]; rewrite H; reflexivity.
  - destruct (user (request s)) as [u|]; [right|left; reflexivity].
    destruct (String.eqb_spec (auth_role u) "admin") as [Ha|Ha];
      [right; exists u; auto|].
    destruct (String.eqb_spec (auth_role u) "moderator") as [Hm|Hm];
      [right; exists u; auto|].
    left; exists u; auto.
Qed.

Lemma adminMiddleware_cases_witness :
  adminMiddleware (mkServer (mkAuthRequest None None) ∅ ∅ 0 [])
  = (Ok tt, logged [Respond 401 (mkApiResponse false (Some "Authentication required.") None)]
                   (mkServer (mkAuthRequest None None) ∅ ∅ 0 []))
  /\ adminMiddleware
       (mkServer (mkAuthRequest None (Some (mkAuthUser "1" "bob@example.com" "user"))) ∅ ∅ 0 [])
     = (Ok tt, logged [Respond 403 (mkApiResponse false
                                      (Some "Access denied. Admin privileges required.") None)]
                      (mkServer (mkAuthRequest None (Some (mkAuthUser "1" "bob@example.com" "user")))
                                ∅ ∅ 0 []))
  /\ adminMiddleware
       (mkServer (mkAuthRequest None (Some (mkAuthUser "2" "eve@example.com" "moderator"))) ∅ ∅ 0 [])
     = (Ok tt, logged [Next]
                      (mkServer (mkAuthRequest None (Some (mkAuthUser "2" "eve@example.com" "moderator")))
                                ∅ ∅ 0 [])).
Proof.
  split; [|split].
  - apply (proj1 (adminMiddleware_cases _)). reflexivity.
  - apply (proj1 (proj2 (adminMiddleware_cases _)) (mkAuthUser "1" "bob@example.com" "user"));
      [reflexivity | discriminate | discriminate].
  - apply (proj1 (proj2 (proj2 (adminMiddleware_cases _)))
                 (mkAuthUser "2" "eve@example.com" "moderator"));
      [reflexivity | right; reflexivity].
Defined.

(** C6, as the specification states it, fails: with no [JWT_SECRET] in
    the environment the request is answered, like any other, with a 401. *)
Lemma missing_secret_answered_counterexample :
  env (Sample.server (Some "Bearer tok:64b7f0a1c2d3e4f501234568") None) !! "JWT_SECRET" = None
  /\ authMiddleware Sample.jwt_verify Sample.queryError
       (Sample.server (Some "Bearer tok:64b7f0a1c2d3e4f501234568") None)
     = (Ok tt,
        logged [Respond 401 (invalidTokenBody "JWT_SECRET is not defined")]
               (Sample.server (Some "Bearer tok:64b7f0a1c2d3e4f501234568") None)).
Proof. split; vm_compute; reflexivity. Qed.

(** C6, amended. When no secret is configured (the variable is unset or
    empty) a request that carries a token is answered with 401 "Invalid
    token." and the reason "JWT_SECRET is not defined"; the token is not
    verified, the store is not asked and no identity is attached. *)
Theorem authMiddleware_missing_secret
    (jwt_verify : string -> string -> Z -> result JwtPayload)
    (queryError : string -> option Thrown) (s : Server) :
  truthy (bearerToken (request s)) = true ->
  truthy (env s !! "JWT_SECRET") = false ->
  authMiddleware jwt_verify queryError s
  = (Ok tt, logged [Respond 401 (invalidTokenBody "JWT_SECRET is not defined")] s).
Proof.
  intros Htoken Hsecret. unfold authMiddleware, try_catch, bind, get, throw.
  destruct (bearerToken (request s)) as [tok|]; [|discriminate].
  rewrite Htoken.
  destruct (env s !! "JWT_SECRET") as [secret|]; [|reflexivity].
  rewrite Hsecret. reflexivity.
Qed.

Lemma authMiddleware_missing_secret_witness :
  authMiddleware Sample.jwt_verify Sample.queryError
    (Sample.server (Some "Bearer tok:64b7f0a1c2d3e4f501234568") (Some ""))
  = (Ok tt,
     logged [Respond 401 (invalidTokenBody "JWT_SECRET is not defined")]
            (Sample.server (Some "Bearer tok:64b7f0a1c2d3e4f501234568") (Some ""))).
Proof.
  apply (authMiddleware_missing_secret Sample.jwt_verify Sample.queryError
           (Sample.server (Some "Bearer tok:64b7f0a1c2d3e4f501234568") (Some "")));
    vm_compute; reflexivity.
Defined.

(** C7. When the [Authorization] header yields no token, [authMiddleware]
    answers 401 and that is all it does: no store lookup is among the
    events of the run, and a second run on the same request against any
    other store, environment, clock, verifier or driver returns the same,
    emits the same events and leaves the same request. *)
Theorem authMiddleware_no_token_no_lookup
    (jwt_verify jwt_verify' : string -> string -> Z -> result JwtPayload)
    (queryError queryError' : string -> option Thrown)
    (s s' : Server) :
  truthy (bearerToken (request s)) = false ->
  request s' = request s ->
  events_of (authMiddleware jwt_verify queryError) s = [Respond 401 noTokenBody]
  /\ (forall id, ~ In (FindById id) (events_of (authMiddleware jwt_verify queryError) s))
  /\ fst (authMiddleware jwt_verify' queryError' s') = fst (authMiddleware jwt_verify queryError s)
  /\ events_of (authMiddleware jwt_verify' queryError') s'
     = events_of (authMiddleware jwt_verify queryError) s
  /\ request (snd (authMiddleware jwt_verify' queryError' s'))
     = request (snd (authMiddleware jwt_verify queryError s)).
Proof.
  intros Hfalsy Hreq.
  assert (Hfalsy' : truthy (bearerToken (request s')) = false) by (rewrite Hreq; exact Hfalsy).
  unfold events_of.
  rewrite (authMiddleware_no_token_run jwt_verify queryError s Hfalsy).
  rewrite (authMiddleware_no_token_run jwt_verify' queryError' s' Hfalsy').
  simpl. rewrite !drop_app_length.
  repeat split; auto.
  intros id [H|[]]. discriminate.
Qed.

Lemma authMiddleware_no_token_no_lookup_witness :
  events_of (authMiddleware Sample.jwt_verify Sample.queryError)
            (Sample.server (Some "Bearer ") (Some "s3cret"))
  = [Respond 401 noTokenBody].
Proof.
  apply (authMiddleware_no_token_no_lookup
           Sample.jwt_verify Sample.jwt_verify Sample.queryError Sample.queryError
           (Sample.server (Some "Bearer ") (Some "s3cret"))
           (Sample.server (Some "Bearer ") None));
    vm_compute; reflexivity.
Defined.

(** ** Deleting a user *)

Section DeleteUser.

Variable queryError : string -> option Thrown.

Lemma deleteUser_existing id s u :
  queryError id = None -> users s !! id = Some u ->
  deleteUser queryError id s
  = (Ok true,
     mkServer (request s) (env s)
              (<[id := IUser.set_updatedAt (clock s) (IUser.set_isActive false u)]> (users s))
              (clock s) (trace s ++ [FindByIdAndUpdate id])).
Proof.
  intros Hq Hu.
  unfold deleteUser, try_catch, User_findByIdAndUpdate, bind, emit, modify, get, ret, put_users.
  rewrite Hq. simpl. rewrite Hu. reflexivity.
Qed.

Lemma nest_find_by_id rows id row :
  List.find (fun r => String.eqb (Nest.id r) id) rows = Some row ->
  In row rows /\ Nest.id row = id.
Proof.
  intros H. apply find_some in H as [Hin Heq]. split; [exact Hin|].
  apply String.eqb_eq, Heq.
Qed.

Lemma nest_find_by_id_present rows id :
  (exists row, In row rows /\ Nest.id row = id) ->
  exists row, List.find (fun r => String.eqb (Nest.id r) id) rows = Some row.
Proof.
  intros (row & Hin & Hid).
  destruct (List.find _ rows) as [found|] eqn:Hfind; [eauto|].
  exfalso. pose proof (find_none _ _ Hfind row Hin) as Hne. simpl in Hne.
  rewrite Hid, String.eqb_refl in Hne. discriminate.
Qed.

Lemma nest_deleteUser_existing rows id :
  (exists row, In row rows /\ Nest.id row = id) ->
  Nest.deleteUser id rows
  = (Ok tt, List.filter (fun r => negb (String.eqb (Nest.id r) id)) rows).
Proof.
  intros Hex. destruct (nest_find_by_id_present rows id Hex) as (row & Hfind).
  unfold Nest.deleteUser, Nest.getUserById, Nest.findOne_by_id, Nest.remove,
    bind, get, ret, modify.
  rewrite Hfind. apply nest_find_by_id in Hfind as [_ ->]. reflexivity.
Qed.

End DeleteUser.

(** C8, as the specification states it, fails: the NestJS service removes
    the record, which cannot be retrieved afterwards. *)
Lemma nest_deleteUser_counterexample :
  Nest.findOne_by_id "c0ffee" [Sample.carol] = (Ok (Some Sample.carol), [Sample.carol])
  /\ Nest.deleteUser "c0ffee" [Sample.carol] = (Ok tt, [])
  /\ Nest.findOne_by_id "c0ffee" (snd (Nest.deleteUser "c0ffee" [Sample.carol])) = (Ok None, []).
Proof. repeat split. Qed.

(** C8, amended. In the Express service [deleteUser(id)] on an existing
    user returns true, sets [isActive] to false, stamps [updatedAt] and
    changes nothing else: the record stays retrievable under its id and
    the other records are as before.  In the NestJS service
    [deleteUser(id)] on an existing user removes every row with that id
    and keeps the others. *)
Theorem deleteUser_soft_in_express_hard_in_nest :
  (forall (queryError : string -> option Thrown) (s : Server) (id : string) (u : IUser.t),
      queryError id = None -> users s !! id = Some u ->
      fst (deleteUser queryError id s) = Ok true
      /\ users (snd (deleteUser queryError id s)) !! id
         = Some (IUser.mk (IUser.id u) (IUser.email u) (IUser.username u) (IUser.password u)
                          (IUser.firstName u) (IUser.lastName u) (IUser.avatar u)
                          (IUser.isVerified u) false (IUser.role u) (IUser.createdAt u)
                          (clock s) (IUser.lastLoginAt u) (IUser.preferences u))
      /\ (forall id', id' <> id ->
            users (snd (deleteUser queryError id s)) !! id' = users s !! id'))
  /\ (forall (rows : Nest.Repository) (id : string),
         (exists row, In row rows /\ Nest.id row = id) ->
         fst (Nest.deleteUser id rows) = Ok tt
         /\ fst (Nest.findOne_by_id id (snd (Nest.deleteUser id rows))) = Ok None
         /\ (forall row, In row (snd (Nest.deleteUser id rows))
                         <-> In row rows /\ Nest.id row <> id)).
Proof.
  split.
  - intros queryError s id u Hq Hu.
    rewrite (deleteUser_existing queryError id s u Hq Hu). simpl.
    repeat split.
    + apply lookup_insert_eq.
    + intros id' Hne. apply lookup_insert_ne. congruence.
  - intros rows id Hex. rewrite (nest_deleteUser_existing rows id Hex). simpl.
    split; [reflexivity|]. split.
    + unfold Nest.findOne_by_id, bind, get, ret. simpl.
      destruct (List.find _ _) as [row|] eqn:Hfind; [|reflexivity].
      apply nest_find_by_id in Hfind as [Hin Hid].
      apply filter_In in Hin as [_ Hkeep].
      rewrite Hid, String.eqb_refl in Hkeep. discriminate.
    + intros row. rewrite filter_In, negb_true_iff, String.eqb_neq. reflexivity.
Qed.

Lemma deleteUser_soft_in_express_hard_in_nest_witness :
  (fst (deleteUser Sample.queryError "64b7f0a1c2d3e4f501234568" (Sample.server None None)) = Ok true
   /\ IUser.isActive
        <$> users (snd (deleteUser Sample.queryError "64b7f0a1c2d3e4f501234568"
                                   (Sample.server None None)))
            !! "64b7f0a1c2d3e4f501234568"
      = Some false)
  /\ fst (Nest.findOne_by_id "c0ffee" (snd (Nest.deleteUser "c0ffee" [Sample.carol]))) = Ok None.
Proof.
  split.
  - destruct (proj1 deleteUser_soft_in_express_hard_in_nest Sample.queryError
                    (Sample.server None None) "64b7f0a1c2d3e4f501234568" Sample.bob)
      as (Hret & Hdoc & _); [vm_compute; reflexivity .. |].
    split; [exact Hret|]. rewrite Hdoc. reflexivity.
  - destruct (proj2 deleteUser_soft_in_express_hard_in_nest [Sample.carol] "c0ffee")
      as (_ & Hgone & _); [|exact Hgone].
    exists Sample.carol. split; [left|]; reflexivity.
Defined.

(** ** Serialisation *)

Section Serialisation.

Context {V : Type}.

(** The rest of a destructuring has the other properties, unchanged. *)
Lemma rest_without_lookup (keys : list string) (obj : gmap string V) (k : string) :
  rest_without keys obj !! k = if bool_decide (k ∈ keys) then None else obj !! k.
Proof.
  unfold rest_without. induction keys as [|k0 keys IH]; simpl; [reflexivity|].
  destruct (decide (k0 = k)) as [->|Hne].
  - rewrite lookup_delete_eq. rewrite bool_decide_eq_true_2; [reflexivity | left].
  - rewrite lookup_delete_ne by exact Hne. rewrite IH.
    destruct (bool_decide (k ∈ keys)) eqn:Hin.
    + apply bool_decide_eq_true_1 in Hin.
      rewrite bool_decide_eq_true_2; [reflexivity | right; exact Hin].
    + apply bool_decide_eq_false_1 in Hin.
      rewrite bool_decide_eq_false_2; [reflexivity|].
      intros Hk. apply elem_of_cons in Hk as [->|Hk]; [congruence | contradiction].
Qed.

Lemma transform_lookup (ret : gmap string V) (k : string) :
  userSchema_toJSON_transform ret !! k = if bool_decide (k = "password") then None else ret !! k.
Proof.
  unfold userSchema_toJSON_transform. case_bool_decide as Hk.
  - subst k. apply lookup_delete_eq.
  - apply lookup_delete_ne. congruence.
Qed.

End Serialisation.

(** C9. None of the three serialisation filters lets a credential
    through: the Mongoose [toJSON] transform returns an object without
    [password], the entity's [toJSON] one without [password],
    [verificationToken] and [resetPasswordToken], and [sanitizeUser] one
    without [passwordHash], whatever the input. *)
Theorem serialised_user_hides_credentials :
  (forall (V : Type) (ret : gmap string V),
      userSchema_toJSON_transform ret !! "password" = None)
  /\ (forall this : User.t,
         User_toJSON this !! "password" = None
         /\ User_toJSON this !! "verificationToken" = None
         /\ User_toJSON this !! "resetPasswordToken" = None)
  /\ (forall (V : Type) (user : gmap string V),
         sanitizeUser user !! "passwordHash" = None).
Proof.
  split; [|split].
  - intros V ret. rewrite transform_lookup. reflexivity.
  - intros this. unfold User_toJSON. rewrite !rest_without_lookup.
    repeat split.
  - intros V user. unfold sanitizeUser. rewrite rest_without_lookup. reflexivity.
Qed.

(** ** Password hashing *)

(** C10. The [hashPassword] hook leaves a password that starts with
    "$2b$" exactly as supplied, and replaces any other non-empty password
    by its bcrypt hash, which differs from the password. *)
Theorem hashPassword_only_without_prefix
    (bcrypt_hash : string -> nat -> string -> string)
    (bcrypt_prefix : forall data rounds salt,
        startsWith "$2b$" (bcrypt_hash data rounds salt) = true)
    (salt : string) (this : User.t) (pw : string) :
  User.password this = Some pw ->
  (startsWith "$2b$" pw = true ->
   User.hashPassword bcrypt_hash salt this = this)
  /\ (startsWith "$2b$" pw = false -> pw <> "" ->
      User.hashPassword bcrypt_hash salt this
      = User.with_password (Some (bcrypt_hash pw 12%nat salt)) this
      /\ User.password (User.hashPassword bcrypt_hash salt this)
         = Some (bcrypt_hash pw 12%nat salt)
      /\ bcrypt_hash pw 12%nat salt <> pw).
Proof.
  intros Hpw. unfold User.hashPassword. rewrite Hpw. split.
  - intros ->. rewrite andb_false_r. reflexivity.
  - intros Hplain Hne. apply String.eqb_neq in Hne. rewrite Hne, Hplain. simpl.
    repeat split. intros Heq.
    specialize (bcrypt_prefix pw 12%nat salt). rewrite Heq in bcrypt_prefix. congruence.
Qed.

Lemma hashPassword_only_without_prefix_witness :
  User.hashPassword Sample.bcrypt_hash "saltsaltsaltsaltsalt22"
    (Sample.account (Some "$2b$ is how my password starts") [])
  = Sample.account (Some "$2b$ is how my password starts") []
  /\ User.password
       (User.hashPassword Sample.bcrypt_hash "saltsaltsaltsaltsalt22"
          (Sample.account (Some "Password123!") []))
     = Some "$2b$12$saltsaltsaltsaltsalt22!321drowssaP".
Proof.
  split.
  - apply (proj1 (hashPassword_only_without_prefix Sample.bcrypt_hash
                    (fun _ _ _ => eq_refl) "saltsaltsaltsaltsalt22"
                    (Sample.account (Some "$2b$ is how my password starts") [])
                    "$2b$ is how my password starts" eq_refl)).
    reflexivity.
  - apply (proj2 (hashPassword_only_without_prefix Sample.bcrypt_hash
                    (fun _ _ _ => eq_refl) "saltsaltsaltsaltsalt22"
                    (Sample.account (Some "Password123!") [])
                    "Password123!" eq_refl)).
    + reflexivity.
    + discriminate.
Defined.

(** * Further properties *)

(** ** Every path through [authMiddleware] *)

Section AuthPaths.

Variable jwt_verify : string -> string -> Z -> result JwtPayload.
Variable queryError : string -> option Thrown.

Local Abbreviation auth := (authMiddleware jwt_verify queryError).

Lemma events_of_logged {A} (m : M Server A) s r evs s' :
  m s = (r, s') -> trace s' = trace s ++ evs -> events_of m s = evs.
Proof.
  intros Hrun Htrace. unfold events_of. rewrite Hrun. simpl.
  rewrite Htrace. apply drop_app_length.
Qed.

Lemma truthy_Some (v : string) :
  truthy (Some v) = true -> String.eqb v "" = false.
Proof. simpl. apply negb_true_iff. Qed.

(** The run for a token that verifies, up to the store's answer. *)
Lemma auth_run_verified s tok secret decoded :
  bearerToken (request s) = Some tok -> truthy (Some tok) = true ->
  env s !! "JWT_SECRET" = Some secret -> truthy (Some secret) = true ->
  jwt_verify tok secret (clock s) = Ok decoded ->
  auth s
  = match queryError (jwt_id decoded) with
    | Some e =>
        (Ok tt, logged [FindById (jwt_id decoded);
                        Respond 401 (invalidTokenBody ("Failed to get user: " +:+ toString e))] s)
    | None =>
        match users s !! jwt_id decoded with
        | Some u =>
            if IUser.isActive u
            then (Ok tt, logged [FindById (jwt_id decoded); Next] (attach u s))
            else (Ok tt, logged [FindById (jwt_id decoded); Respond 401 notFoundBody] s)
        | None => (Ok tt, logged [FindById (jwt_id decoded); Respond 401 notFoundBody] s)
        end
    end.
Proof.
  intros Htok Htruthy Hsecret Hstruthy Hverify.
  unfold authMiddleware, try_catch, bind at 1, get.
  rewrite Htok, Htruthy, Hsecret, Hstruthy.
  unfold bind at 1, lift. rewrite Hverify.
  unfold getUserById, User_findById, try_catch, bind, emit, modify, get, ret, throw,
    respond, next, set_req_user.
  simpl. destruct (queryError (jwt_id decoded)) as [e|]; simpl.
  - unfold emit, modify. rewrite logged_logged. reflexivity.
  - destruct (users s !! jwt_id decoded) as [u|]; simpl.
    + destruct (IUser.isActive u); unfold emit, modify, logged, attach; simpl;
        rewrite <- app_assoc; reflexivity.
    + unfold emit, modify. rewrite logged_logged. reflexivity.
Qed.

(** The run for a token that does not verify. *)
Lemma auth_run_rejected s tok secret e :
  bearerToken (request s) = Some tok -> truthy (Some tok) = true ->
  env s !! "JWT_SECRET" = Some secret -> truthy (Some secret) = true ->
  jwt_verify tok secret (clock s) = Throw e ->
  auth s = (Ok tt, logged [Respond 401 (invalidTokenBody (errorMessage e))] s).
Proof.
  intros Htok Htruthy Hsecret Hstruthy Hverify.
  unfold authMiddleware, try_catch, bind at 1, get.
  rewrite Htok, Htruthy, Hsecret, Hstruthy.
  unfold bind at 1, lift. rewrite Hverify. reflexivity.
Qed.

(** The run when the secret is not configured. *)
Lemma auth_run_unconfigured s tok :
  bearerToken (request s) = Some tok -> truthy (Some tok) = true ->
  truthy (env s !! "JWT_SECRET") = false ->
  auth s = (Ok tt, logged [Respond 401 (invalidTokenBody "JWT_SECRET is not defined")] s).
Proof.
  intros Htok Htruthy Hsecret. unfold authMiddleware, try_catch, bind, get, throw.
  rewrite Htok, Htruthy.
  destruct (env s !! "JWT_SECRET") as [secret|]; [|reflexivity].
  rewrite Hsecret. reflexivity.
Qed.

Lemma auth_run_shape s : AuthRun s (auth s).
Proof.
  destruct (bearerToken (request s)) as [tok|] eqn:Htok.
  2: { rewrite (authMiddleware_no_token_run jwt_verify queryError s); [constructor|].
       rewrite Htok. reflexivity. }
  destruct (truthy (Some tok)) eqn:Htruthy.
  2: { rewrite (authMiddleware_no_token_run jwt_verify queryError s); [constructor|].
       rewrite Htok. exact Htruthy. }
  destruct (truthy (env s !! "JWT_SECRET")) eqn:Hstruthy.
  2: { rewrite (auth_run_unconfigured s tok Htok Htruthy Hstruthy). constructor. }
  destruct (env s !! "JWT_SECRET") as [secret|] eqn:Hsecret; [|discriminate].
  destruct (jwt_verify tok secret (clock s)) as [decoded|e] eqn:Hverify.
  2: { rewrite (auth_run_rejected s tok secret e Htok Htruthy Hsecret Hstruthy Hverify).
       constructor. }
  rewrite (auth_run_verified s tok secret decoded Htok Htruthy Hsecret Hstruthy Hverify).
  destruct (queryError (jwt_id decoded)); [constructor|].
  destruct (users s !! jwt_id decoded) as [u|] eqn:Hu; [|constructor].
  destruct (IUser.isActive u) eqn:Hactive; [|constructor].
  constructor; assumption.
Qed.

End AuthPaths.

(** X1. A run of [authMiddleware] never throws and ends in exactly one of
    two ways, a single 401 response or a call of [next]; it asks the
    store at most once, and leaves the store, the environment, the clock
    and the request header as they were. *)
Theorem authMiddleware_single_outcome
    (jwt_verify : string -> string -> Z -> result JwtPayload)
    (queryError : string -> option Thrown) (s : Server) :
  fst (authMiddleware jwt_verify queryError s) = Ok tt
  /\ users (snd (authMiddleware jwt_verify queryError s)) = users s
  /\ env (snd (authMiddleware jwt_verify queryError s)) = env s
  /\ clock (snd (authMiddleware jwt_verify queryError s)) = clock s
  /\ authorization (request (snd (authMiddleware jwt_verify queryError s)))
     = authorization (request s)
  /\ ((exists body,
          events_of (authMiddleware jwt_verify queryError) s = [Respond 401 body])
      \/ (exists id body,
             events_of (authMiddleware jwt_verify queryError) s
             = [FindById id; Respond 401 body])
      \/ (exists id,
             events_of (authMiddleware jwt_verify queryError) s = [FindById id; Next])).
Proof.
  unfold events_of.
  destruct (auth_run_shape jwt_verify queryError s) as [body|id body|id u Hu Hactive];
    simpl; rewrite drop_app_length; repeat split; eauto.
Qed.

(** X2. [authMiddleware] calls [next] exactly when the header carries a
    non-empty token, a non-empty secret is configured, the token
    verifies, the store answers, and the record it names is stored with
    [isActive] set. *)
Theorem authMiddleware_accepts_iff
    (jwt_verify : string -> string -> Z -> result JwtPayload)
    (queryError : string -> option Thrown) (s : Server) :
  In Next (events_of (authMiddleware jwt_verify queryError) s)
  <-> exists tok secret decoded u,
        bearerToken (request s) = Some tok /\ truthy (Some tok) = true /\
        env s !! "JWT_SECRET" = Some secret /\ truthy (Some secret) = true /\
        jwt_verify tok secret (clock s) = Ok decoded /\
        queryError (jwt_id decoded) = None /\
        users s !! jwt_id decoded = Some u /\ IUser.isActive u = true.
Proof.
  split.
  - destruct (bearerToken (request s)) as [tok|] eqn:Htok.
    2: { rewrite (events_of_logged _ s _ [Respond 401 noTokenBody] _
                    (authMiddleware_no_token_run jwt_verify queryError s
                       ltac:(rewrite Htok; reflexivity)) eq_refl).
         intros [H|[]]; discriminate. }
    destruct (truthy (Some tok)) eqn:Htruthy.
    2: { rewrite (events_of_logged _ s _ [Respond 401 noTokenBody] _
                    (authMiddleware_no_token_run jwt_verify queryError s
                       ltac:(rewrite Htok; exact Htruthy)) eq_refl).
         intros [H|[]]; discriminate. }
    destruct (truthy (env s !! "JWT_SECRET")) eqn:Hstruthy.
    2: { rewrite (events_of_logged _ s _ _ _
                    (auth_run_unconfigured jwt_verify queryError s tok Htok Htruthy Hstruthy)
                    eq_refl).
         intros [H|[]]; discriminate. }
    destruct (env s !! "JWT_SECRET") as [secret|] eqn:Hsecret; [|discriminate].
    destruct (jwt_verify tok secret (clock s)) as [decoded|e] eqn:Hverify.
    2: { rewrite (events_of_logged _ s _ _ _
                    (auth_run_rejected jwt_verify queryError s tok secret e
                       Htok Htruthy Hsecret Hstruthy Hverify) eq_refl).
         intros [H|[]]; discriminate. }
    pose proof (auth_run_verified jwt_verify queryError s tok secret decoded
                  Htok Htruthy Hsecret Hstruthy Hverify) as Hrun.
    destruct (queryError (jwt_id decoded)) as [e|] eqn:Hq.
    { rewrite (events_of_logged _ s _ _ _ Hrun eq_refl). intros [H|[H|[]]]; discriminate. }
    destruct (users s !! jwt_id decoded) as [u|] eqn:Hu.
    2: { rewrite (events_of_logged _ s _ _ _ Hrun eq_refl). intros [H|[H|[]]]; discriminate. }
    destruct (IUser.isActive u) eqn:Hactive.
    2: { rewrite (events_of_logged _ s _ _ _ Hrun eq_refl). intros [H|[H|[]]]; discriminate. }
    intros _. exists tok, secret, decoded, u. repeat split; assumption.
  - intros (tok & secret & decoded & u & Htok & Htruthy & Hsecret & Hstruthy
            & Hverify & Hq & Hu & Hactive).
    pose proof (auth_run_verified jwt_verify queryError s tok secret decoded
                  Htok Htruthy Hsecret Hstruthy Hverify) as Hrun.
    rewrite Hq, Hu, Hactive in Hrun.
    rewrite (events_of_logged _ s _ [FindById (jwt_id decoded); Next] _ Hrun eq_refl).
    right; left; reflexivity.
Qed.

Lemma authMiddleware_accepts_iff_witness :
  In Next (events_of (authMiddleware Sample.jwt_verify Sample.queryError)
                     (Sample.server (Some "Bearer tok:64b7f0a1c2d3e4f501234568") (Some "s3cret"))).
Proof.
  apply (proj2 (authMiddleware_accepts_iff Sample.jwt_verify Sample.queryError
                  (Sample.server (Some "Bearer tok:64b7f0a1c2d3e4f501234568") (Some "s3cret")))).
  exists "tok:64b7f0a1c2d3e4f501234568", "s3cret",
         (mkJwtPayload "64b7f0a1c2d3e4f501234568"), Sample.bob.
  repeat split; vm_compute; reflexivity.
Defined.

(** X3. On acceptance the request gets the [id], [email] and [role] of
    the stored record and nothing else changes: the run is one store
    lookup followed by [next], and no response is written. *)
Theorem authMiddleware_attaches_stored_identity
    (jwt_verify : string -> string -> Z -> result JwtPayload)
    (queryError : string -> option Thrown)
    (s : Server) (tok secret : string) (decoded : JwtPayload) (u : IUser.t) :
  bearerToken (request s) = Some tok -> truthy (Some tok) = true ->
  env s !! "JWT_SECRET" = Some secret -> truthy (Some secret) = true ->
  jwt_verify tok secret (clock s) = Ok decoded ->
  queryError (jwt_id decoded) = None ->
  users s !! jwt_id decoded = Some u -> IUser.isActive u = true ->
  authMiddleware jwt_verify queryError s
  = (Ok tt,
     mkServer (mkAuthRequest (authorization (request s))
                             (Some (mkAuthUser (IUser.id u) (IUser.email u) (IUser.role u))))
              (env s) (users s) (clock s)
              (trace s ++ [FindById (jwt_id decoded); Next])).
Proof.
  intros Htok Htruthy Hsecret Hstruthy Hverify Hq Hu Hactive.
  rewrite (auth_run_verified jwt_verify queryError s tok secret decoded
             Htok Htruthy Hsecret Hstruthy Hverify).
  rewrite Hq, Hu, Hactive. reflexivity.
Qed.

Lemma authMiddleware_attaches_stored_identity_witness :
  user (request (snd (authMiddleware Sample.jwt_verify Sample.queryError
                        (Sample.server (Some "Bearer tok:64b7f0a1c2d3e4f501234568")
                                       (Some "s3cret")))))
  = Some (mkAuthUser "64b7f0a1c2d3e4f501234568" "bob@example.com" "user").
Proof.
  rewrite (authMiddleware_attaches_stored_identity Sample.jwt_verify Sample.queryError
             (Sample.server (Some "Bearer tok:64b7f0a1c2d3e4f501234568") (Some "s3cret"))
             "tok:64b7f0a1c2d3e4f501234568" "s3cret"
             (mkJwtPayload "64b7f0a1c2d3e4f501234568") Sample.bob);
    vm_compute; reflexivity.
Defined.

(** X4. A token that [jwt.verify] refuses is answered with 401 "Invalid
    token." carrying the verifier's own message; the store is not asked
    and the request is unchanged. *)
Theorem authMiddleware_rejected_token
    (jwt_verify : string -> string -> Z -> result JwtPayload)
    (queryError : string -> option Thrown)
    (s : Server) (tok secret : string) (e : Thrown) :
  bearerToken (request s) = Some tok -> truthy (Some tok) = true ->
  env s !! "JWT_SECRET" = Some secret -> truthy (Some secret) = true ->
  jwt_verify tok secret (clock s) = Throw e ->
  authMiddleware jwt_verify queryError s
  = (Ok tt, logged [Respond 401 (mkApiResponse false (Some "Invalid token.")
                                               (Some [errorMessage e]))] s).
Proof. apply auth_run_rejected. Qed.

Lemma authMiddleware_rejected_token_witness :
  authMiddleware Sample.jwt_verify Sample.queryError
    (Sample.server (Some "Bearer forged") (Some "s3cret"))
  = (Ok tt, logged [Respond 401 (mkApiResponse false (Some "Invalid token.")
                                               (Some ["jwt malformed"]))]
                   (Sample.server (Some "Bearer forged") (Some "s3cret"))).
Proof.
  apply (authMiddleware_rejected_token Sample.jwt_verify Sample.queryError
           (Sample.server (Some "Bearer forged") (Some "s3cret"))
           "forged" "s3cret" (ErrorObj "JsonWebTokenError" "jwt malformed"));
    vm_compute; reflexivity.
Defined.

(** X5. When the store lookup fails, the failure is answered as a 401
    "Invalid token.", not as a server error, and the text of the driver's
    error reaches the client behind "Failed to get user: ". *)
Theorem authMiddleware_store_failure
    (jwt_verify : string -> string -> Z -> result JwtPayload)
    (queryError : string -> option Thrown)
    (s : Server) (tok secret : string) (decoded : JwtPayload) (e : Thrown) :
  bearerToken (request s) = Some tok -> truthy (Some tok) = true ->
  env s !! "JWT_SECRET" = Some secret -> truthy (Some secret) = true ->
  jwt_verify tok secret (clock s) = Ok decoded ->
  queryError (jwt_id decoded) = Some e ->
  authMiddleware jwt_verify queryError s
  = (Ok tt,
     logged [FindById (jwt_id decoded);
             Respond 401 (mkApiResponse false (Some "Invalid token.")
                            (Some ["Failed to get user: " +:+ toString e]))] s).
Proof.
  intros Htok Htruthy Hsecret Hstruthy Hverify Hq.
  rewrite (auth_run_verified jwt_verify queryError s tok secret decoded
             Htok Htruthy Hsecret Hstruthy Hverify).
  rewrite Hq. reflexivity.
Qed.

Lemma authMiddleware_store_failure_witness :
  authMiddleware Sample.jwt_verify Sample.queryError
    (Sample.server (Some "Bearer tok:42") (Some "s3cret"))
  = (Ok tt,
     logged [FindById "42";
             Respond 401 (mkApiResponse false (Some "Invalid token.")
                            (Some ["Failed to get user: CastError: Cast to ObjectId failed"]))]
            (Sample.server (Some "Bearer tok:42") (Some "s3cret"))).
Proof.
  apply (authMiddleware_store_failure Sample.jwt_verify Sample.queryError
           (Sample.server (Some "Bearer tok:42") (Some "s3cret"))
           "tok:42" "s3cret" (mkJwtPayload "42")
           (ErrorObj "CastError" "Cast to ObjectId failed"));
    vm_compute; reflexivity.
Defined.

(** X6. A client cannot tell an account that does not exist from one
    that has been deactivated: for the same request, a store without the
    record and a store with the inactive record give the same result and
    the same events. *)
Theorem authMiddleware_missing_like_inactive
    (jwt_verify : string -> string -> Z -> result JwtPayload)
    (queryError : string -> option Thrown)
    (s s' : Server) (tok secret : string) (decoded : JwtPayload) (u : IUser.t) :
  bearerToken (request s) = Some tok -> truthy (Some tok) = true ->
  env s !! "JWT_SECRET" = Some secret -> truthy (Some secret) = true ->
  jwt_verify tok secret (clock s) = Ok decoded ->
  queryError (jwt_id decoded) = None ->
  request s' = request s -> env s' = env s -> clock s' = clock s ->
  users s !! jwt_id decoded = None ->
  users s' !! jwt_id decoded = Some u -> IUser.isActive u = false ->
  fst (authMiddleware jwt_verify queryError s) = fst (authMiddleware jwt_verify queryError s')
  /\ events_of (authMiddleware jwt_verify queryError) s
     = [FindById (jwt_id decoded);
        Respond 401 (mkApiResponse false (Some "Invalid token or user not found.") None)]
  /\ events_of (authMiddleware jwt_verify queryError) s'
     = events_of (authMiddleware jwt_verify queryError) s.
Proof.
  intros Htok Htruthy Hsecret Hstruthy Hverify Hq Hreq Henv Hclock Hnone Hsome Hinactive.
  pose proof (auth_run_verified jwt_verify queryError s tok secret decoded
                Htok Htruthy Hsecret Hstruthy Hverify) as Hrun.
  rewrite Hq, Hnone in Hrun.
  assert (Hrun' : authMiddleware jwt_verify queryError s'
                  = (Ok tt, logged [FindById (jwt_id decoded); Respond 401 notFoundBody] s')).
  { rewrite (auth_run_verified jwt_verify queryError s' tok secret decoded);
      rewrite ?Hreq, ?Henv, ?Hclock; try assumption.
    rewrite Hq, Hsome, Hinactive. reflexivity. }
  rewrite (events_of_logged _ s _ _ _ Hrun eq_refl).
  rewrite (events_of_logged _ s' _ _ _ Hrun' eq_refl).
  rewrite Hrun, Hrun'. repeat split.
Qed.

Lemma authMiddleware_missing_like_inactive_witness :
  events_of (authMiddleware Sample.jwt_verify Sample.queryError)
            (Sample.server (Some "Bearer tok:64b7f0a1c2d3e4f501234567") (Some "s3cret"))
  = events_of (authMiddleware Sample.jwt_verify Sample.queryError)
              (mkServer (mkAuthRequest (Some "Bearer tok:64b7f0a1c2d3e4f501234567") None)
                        {[ "JWT_SECRET" := "s3cret" ]} ∅ 5000 []).
Proof.
  apply (authMiddleware_missing_like_inactive Sample.jwt_verify Sample.queryError
           (mkServer (mkAuthRequest (Some "Bearer tok:64b7f0a1c2d3e4f501234567") None)
                     {[ "JWT_SECRET" := "s3cret" ]} ∅ 5000 [])
           (Sample.server (Some "Bearer tok:64b7f0a1c2d3e4f501234567") (Some "s3cret"))
           "tok:64b7f0a1c2d3e4f501234567" "s3cret"
           (mkJwtPayload "64b7f0a1c2d3e4f501234567") Sample.alice);
    vm_compute; reflexivity.
Defined.

(** ** Routes *)

Section RouteLemmas.

Lemma route_pass (handler : M Server unit) rest s s' :
  handler s = (Ok tt, s') -> calledNext (events_of handler s) = true ->
  route (handler :: rest) s = route rest s'.
Proof. intros Hrun Hnext. simpl. rewrite Hrun, Hnext. reflexivity. Qed.

Lemma route_stop (handler : M Server unit) rest s s' :
  handler s = (Ok tt, s') -> calledNext (events_of handler s) = false ->
  route (handler :: rest) s = (Ok tt, s').
Proof. intros Hrun Hnext. simpl. rewrite Hrun, Hnext. reflexivity. Qed.

(** The last handler of a route runs as it is. *)
Lemma route_last (handler : M Server unit) s : route [handler] s = handler s.
Proof.
  simpl. destruct (handler s) as [[[]|e] s']; [|reflexivity].
  destruct (calledNext _); reflexivity.
Qed.

Lemma route_after_logged (handler : M Server unit) rest s evs s0 :
  handler s = (Ok tt, logged evs s0) -> trace s0 = trace s ->
  route (handler :: rest) s
  = if calledNext evs then route rest (logged evs s0) else (Ok tt, logged evs s0).
Proof.
  intros Hrun Htrace.
  assert (Hevents : events_of handler s = evs).
  { apply (events_of_logged handler s (Ok tt) evs (logged evs s0) Hrun).
    simpl. rewrite Htrace. reflexivity. }
  simpl. rewrite Hrun, Hevents. reflexivity.
Qed.

(** [adminMiddleware] on a request that carries an identity. *)
Lemma adminMiddleware_with_identity s identity :
  user (request s) = Some identity ->
  adminMiddleware s
  = if negb (String.eqb (auth_role identity) "admin")
       && negb (String.eqb (auth_role identity) "moderator")
    then (Ok tt, logged [Respond 403 (mkApiResponse false
                                        (Some "Access denied. Admin privileges required.") None)] s)
    else (Ok tt, logged [Next] s).
Proof.
  intros Huser. unfold adminMiddleware, try_catch, bind, get. rewrite Huser.
  destruct (negb _ && negb _); reflexivity.
Qed.

End RouteLemmas.

(** Every run of [authMiddleware] is one of two: the token of the
    request resolves to a stored, active record, whose identity is
    attached before [next]; or the request is answered with 401 and is
    left as it was. *)
Lemma auth_run_resolved_or_denied
    (jwt_verify : string -> string -> Z -> result JwtPayload)
    (queryError : string -> option Thrown) (s : Server) :
  (exists tok secret decoded u,
      bearerToken (request s) = Some tok /\ truthy (Some tok) = true /\
      env s !! "JWT_SECRET" = Some secret /\ truthy (Some secret) = true /\
      jwt_verify tok secret (clock s) = Ok decoded /\
      queryError (jwt_id decoded) = None /\
      users s !! jwt_id decoded = Some u /\ IUser.isActive u = true /\
      authMiddleware jwt_verify queryError s
      = (Ok tt, logged [FindById (jwt_id decoded); Next] (attach u s)))
  \/ (exists before body,
         (before = [] \/ exists id, before = [FindById id]) /\
         authMiddleware jwt_verify queryError s
         = (Ok tt, logged (before ++ [Respond 401 body]) s)).
Proof.
  destruct (bearerToken (request s)) as [tok|] eqn:Htok.
  2: { right. exists [], noTokenBody. split; [left; reflexivity|].
       apply authMiddleware_no_token_run. rewrite Htok. reflexivity. }
  destruct (truthy (Some tok)) eqn:Htruthy.
  2: { right. exists [], noTokenBody. split; [left; reflexivity|].
       apply authMiddleware_no_token_run. rewrite Htok. exact Htruthy. }
  destruct (truthy (env s !! "JWT_SECRET")) eqn:Hstruthy.
  2: { right. exists [], (invalidTokenBody "JWT_SECRET is not defined").
       split; [left; reflexivity|].
       exact (auth_run_unconfigured jwt_verify queryError s tok Htok Htruthy Hstruthy). }
  destruct (env s !! "JWT_SECRET") as [secret|] eqn:Hsecret; [|discriminate].
  destruct (jwt_verify tok secret (clock s)) as [decoded|e] eqn:Hverify.
  2: { right. exists [], (invalidTokenBody (errorMessage e)). split; [left; reflexivity|].
       exact (auth_run_rejected jwt_verify queryError s tok secret e
                Htok Htruthy Hsecret Hstruthy Hverify). }
  pose proof (auth_run_verified jwt_verify queryError s tok secret decoded
                Htok Htruthy Hsecret Hstruthy Hverify) as Hrun.
  destruct (queryError (jwt_id decoded)) as [e|] eqn:Hq.
  { right. exists [FindById (jwt_id decoded)], (invalidTokenBody ("Failed to get user: " +:+ toString e)).
    split; [right; eauto | exact Hrun]. }
  destruct (users s !! jwt_id decoded) as [u|] eqn:Hu.
  2: { right. exists [FindById (jwt_id decoded)], notFoundBody.
       split; [right; eauto | exact Hrun]. }
  destruct (IUser.isActive u) eqn:Hactive.
  2: { right. exists [FindById (jwt_id decoded)], notFoundBody.
       split; [right; eauto | exact Hrun]. }
  left. exists tok, secret, decoded, u. repeat split; assumption.
Qed.

(** An admin route once [authMiddleware] has accepted. *)
Lemma adminRoute_after_acceptance
    (jwt_verify : string -> string -> Z -> result JwtPayload)
    (queryError : string -> option Thrown)
    (handler : M Server unit) (s : Server) (id : string) (u : IUser.t) :
  authMiddleware jwt_verify queryError s = (Ok tt, logged [FindById id; Next] (attach u s)) ->
  adminRoute jwt_verify queryError handler s
  = if negb (String.eqb (IUser.role u) "admin") && negb (String.eqb (IUser.role u) "moderator")
    then (Ok tt, logged [FindById id; Next;
                         Respond 403 (mkApiResponse false
                                        (Some "Access denied. Admin privileges required.") None)]
                        (attach u s))
    else handler (logged [FindById id; Next; Next] (attach u s)).
Proof.
  intros Hrun. unfold adminRoute.
  rewrite (route_after_logged _ _ s _ (attach u s) Hrun eq_refl). simpl calledNext. cbv iota.
  pose proof (adminMiddleware_with_identity (logged [FindById id; Next] (attach u s))
                _ eq_refl) as Hadmin.
  simpl auth_role in Hadmin.
  destruct (negb (String.eqb (IUser.role u) "admin")
            && negb (String.eqb (IUser.role u) "moderator")).
  - rewrite (route_after_logged _ _ _ [Respond 403 _] _ Hadmin eq_refl).
    simpl calledNext. cbv iota. rewrite logged_logged. reflexivity.
  - rewrite (route_after_logged _ _ _ [Next] _ Hadmin eq_refl). simpl calledNext. cbv iota.
    rewrite route_last, logged_logged. reflexivity.
Qed.

(** A protected route once [authMiddleware] has accepted. *)
Lemma profileRoute_after_acceptance
    (jwt_verify : string -> string -> Z -> result JwtPayload)
    (queryError : string -> option Thrown)
    (handler : M Server unit) (s : Server) (id : string) (u : IUser.t) :
  authMiddleware jwt_verify queryError s = (Ok tt, logged [FindById id; Next] (attach u s)) ->
  profileRoute jwt_verify queryError handler s
  = handler (logged [FindById id; Next] (attach u s)).
Proof.
  intros Hrun. unfold profileRoute.
  rewrite (route_after_logged _ _ s _ (attach u s) Hrun eq_refl). apply route_last.
Qed.

(** A route whose first handler answers 401 without calling [next]. *)
Lemma route_denied_at_once (first : M Server unit) rest s before body :
  (before = [] \/ exists id, before = [FindById id]) ->
  first s = (Ok tt, logged (before ++ [Respond 401 body]) s) ->
  route (first :: rest) s = (Ok tt, logged (before ++ [Respond 401 body]) s).
Proof.
  intros Hbefore Hrun. rewrite (route_after_logged _ _ s _ s Hrun eq_refl).
  destruct Hbefore as [->|[id ->]]; reflexivity.
Qed.

(** X7. On an admin route the handler runs exactly for a request whose
    token resolves to a stored, active record with role "admin" or
    "moderator": the header yields a non-empty token, a non-empty secret
    is configured, [jwt.verify] accepts the token, the lookup of the id
    it names succeeds and finds a record with [isActive] set and one of
    the two roles.  The handler then runs on the request with the
    identity of that record attached.  Every other request ends in a
    401 with the server otherwise unchanged or, when the token resolves
    to an active record with another role, in a 403; in both cases the
    handler plays no part. *)
Theorem adminRoute_guard
    (jwt_verify : string -> string -> Z -> result JwtPayload)
    (queryError : string -> option Thrown)
    (handler : M Server unit) (s : Server) :
  (forall tok secret decoded u,
      bearerToken (request s) = Some tok -> truthy (Some tok) = true ->
      env s !! "JWT_SECRET" = Some secret -> truthy (Some secret) = true ->
      jwt_verify tok secret (clock s) = Ok decoded ->
      queryError (jwt_id decoded) = None ->
      users s !! jwt_id decoded = Some u -> IUser.isActive u = true ->
      IUser.role u = "admin" \/ IUser.role u = "moderator" ->
      adminRoute jwt_verify queryError handler s
      = handler (logged [FindById (jwt_id decoded); Next; Next] (attach u s)))
  /\ ((exists tok secret decoded u,
          bearerToken (request s) = Some tok /\ truthy (Some tok) = true /\
          env s !! "JWT_SECRET" = Some secret /\ truthy (Some secret) = true /\
          jwt_verify tok secret (clock s) = Ok decoded /\
          queryError (jwt_id decoded) = None /\
          users s !! jwt_id decoded = Some u /\ IUser.isActive u = true /\
          (IUser.role u = "admin" \/ IUser.role u = "moderator") /\
          adminRoute jwt_verify queryError handler s
          = handler (logged [FindById (jwt_id decoded); Next; Next] (attach u s)))
      \/ (exists before body,
             (before = [] \/ exists id, before = [FindById id]) /\
             adminRoute jwt_verify queryError handler s
             = (Ok tt, logged (before ++ [Respond 401 body]) s))
      \/ (exists tok secret decoded u,
             bearerToken (request s) = Some tok /\ truthy (Some tok) = true /\
             env s !! "JWT_SECRET" = Some secret /\ truthy (Some secret) = true /\
             jwt_verify tok secret (clock s) = Ok decoded /\
             queryError (jwt_id decoded) = None /\
             users s !! jwt_id decoded = Some u /\ IUser.isActive u = true /\
             IUser.role u <> "admin" /\ IUser.role u <> "moderator" /\
             adminRoute jwt_verify queryError handler s
             = (Ok tt, logged [FindById (jwt_id decoded); Next;
                               Respond 403 (mkApiResponse false
                                              (Some "Access denied. Admin privileges required.")
                                              None)]
                              (attach u s)))).
Proof.
  split.
  - intros tok secret decoded u Htok Htruthy Hsecret Hstruthy Hverify Hq Hu Hactive Hrole.
    pose proof (auth_run_verified jwt_verify queryError s tok secret decoded
                  Htok Htruthy Hsecret Hstruthy Hverify) as Hrun.
    rewrite Hq, Hu, Hactive in Hrun.
    rewrite (adminRoute_after_acceptance jwt_verify queryError handler s _ u Hrun).
    destruct Hrole as [-> | ->]; reflexivity.
  - destruct (auth_run_resolved_or_denied jwt_verify queryError s)
      as [(tok & secret & decoded & u & Htok & Htruthy & Hsecret & Hstruthy
           & Hverify & Hq & Hu & Hactive & Hrun)
         |(before & body & Hbefore & Hrun)].
    + pose proof (adminRoute_after_acceptance jwt_verify queryError handler s _ u Hrun)
        as Hroute.
      destruct (String.eqb_spec (IUser.role u) "admin") as [Ha|Ha];
        [|destruct (String.eqb_spec (IUser.role u) "moderator") as [Hm|Hm]];
        simpl in Hroute.
      * left. exists tok, secret, decoded, u. repeat split; auto.
      * left. exists tok, secret, decoded, u. repeat split; auto.
      * right; right. exists tok, secret, decoded, u. repeat split; auto.
    + right; left. exists before, body. split; [exact Hbefore|].
      unfold adminRoute. exact (route_denied_at_once _ _ s before body Hbefore Hrun).
Qed.

Lemma adminRoute_guard_witness :
  adminRoute Sample.jwt_verify Sample.queryError Fixture.ok_handler
    (Fixture.server (Some "Bearer tok:64b7f0a1c2d3e4f501234569"))
  = Fixture.ok_handler
      (logged [FindById "64b7f0a1c2d3e4f501234569"; Next; Next]
              (attach Fixture.erin (Fixture.server (Some "Bearer tok:64b7f0a1c2d3e4f501234569")))).
Proof.
  apply (proj1 (adminRoute_guard Sample.jwt_verify Sample.queryError Fixture.ok_handler
                  (Fixture.server (Some "Bearer tok:64b7f0a1c2d3e4f501234569")))
               "tok:64b7f0a1c2d3e4f501234569" "s3cret"
               (mkJwtPayload "64b7f0a1c2d3e4f501234569") Fixture.erin);
    try (vm_compute; reflexivity).
  right. reflexivity.
Defined.

(** The three kinds of caller on an admin route: a moderator reaches the
    handler, a plain user is stopped with 403, a deactivated
    administrator with 401. *)
Example adminRoute_callers :
  events_of (adminRoute Sample.jwt_verify Sample.queryError Fixture.ok_handler)
            (Fixture.server (Some "Bearer tok:64b7f0a1c2d3e4f501234569"))
  = [FindById "64b7f0a1c2d3e4f501234569"; Next; Next;
     Respond 200 (mkApiResponse true None None)]
  /\ events_of (adminRoute Sample.jwt_verify Sample.queryError Fixture.ok_handler)
               (Fixture.server (Some "Bearer tok:64b7f0a1c2d3e4f501234568"))
     = [FindById "64b7f0a1c2d3e4f501234568"; Next;
        Respond 403 (mkApiResponse false
                       (Some "Access denied. Admin privileges required.") None)]
  /\ events_of (adminRoute Sample.jwt_verify Sample.queryError Fixture.ok_handler)
               (Fixture.server (Some "Bearer tok:64b7f0a1c2d3e4f501234567"))
     = [FindById "64b7f0a1c2d3e4f501234567"; Respond 401 notFoundBody].
Proof. repeat split; vm_compute; reflexivity. Qed.

(** X8. On a protected route the handler runs exactly for a request
    whose token resolves to a stored, active record: the header yields a
    non-empty token, a non-empty secret is configured, [jwt.verify]
    accepts the token, and the lookup of the id it names succeeds and
    finds a record with [isActive] set.  The handler then runs on the
    request with the identity of that record attached; every other
    request ends in a 401 with the server otherwise unchanged. *)
Theorem profileRoute_guard
    (jwt_verify : string -> string -> Z -> result JwtPayload)
    (queryError : string -> option Thrown)
    (handler : M Server unit) (s : Server) :
  (forall tok secret decoded u,
      bearerToken (request s) = Some tok -> truthy (Some tok) = true ->
      env s !! "JWT_SECRET" = Some secret -> truthy (Some secret) = true ->
      jwt_verify tok secret (clock s) = Ok decoded ->
      queryError (jwt_id decoded) = None ->
      users s !! jwt_id decoded = Some u -> IUser.isActive u = true ->
      profileRoute jwt_verify queryError handler s
      = handler (logged [FindById (jwt_id decoded); Next] (attach u s)))
  /\ ((exists tok secret decoded u,
          bearerToken (request s) = Some tok /\ truthy (Some tok) = true /\
          env s !! "JWT_SECRET" = Some secret /\ truthy (Some secret) = true /\
          jwt_verify tok secret (clock s) = Ok decoded /\
          queryError (jwt_id decoded) = None /\
          users s !! jwt_id decoded = Some u /\ IUser.isActive u = true /\
          profileRoute jwt_verify queryError handler s
          = handler (logged [FindById (jwt_id decoded); Next] (attach u s)))
      \/ (exists before body,
             (before = [] \/ exists id, before = [FindById id]) /\
             profileRoute jwt_verify queryError handler s
             = (Ok tt, logged (before ++ [Respond 401 body]) s))).
Proof.
  split.
  - intros tok secret decoded u Htok Htruthy Hsecret Hstruthy Hverify Hq Hu Hactive.
    pose proof (auth_run_verified jwt_verify queryError s tok secret decoded
                  Htok Htruthy Hsecret Hstruthy Hverify) as Hrun.
    rewrite Hq, Hu, Hactive in Hrun.
    exact (profileRoute_after_acceptance jwt_verify queryError handler s _ u Hrun).
  - destruct (auth_run_resolved_or_denied jwt_verify queryError s)
      as [(tok & secret & decoded & u & Htok & Htruthy & Hsecret & Hstruthy
           & Hverify & Hq & Hu & Hactive & Hrun)
         |(before & body & Hbefore & Hrun)].
    + left. exists tok, secret, decoded, u. repeat split; auto.
      exact (profileRoute_after_acceptance jwt_verify queryError handler s _ u Hrun).
    + right. exists before, body. split; [exact Hbefore|].
      unfold profileRoute. exact (route_denied_at_once _ _ s before body Hbefore Hrun).
Qed.

Lemma profileRoute_guard_witness :
  profileRoute Sample.jwt_verify Sample.queryError Fixture.ok_handler
    (Fixture.server (Some "Bearer tok:64b7f0a1c2d3e4f501234568"))
  = Fixture.ok_handler
      (logged [FindById "64b7f0a1c2d3e4f501234568"; Next]
              (attach Sample.bob (Fixture.server (Some "Bearer tok:64b7f0a1c2d3e4f501234568")))).
Proof.
  apply (proj1 (profileRoute_guard Sample.jwt_verify Sample.queryError Fixture.ok_handler
                  (Fixture.server (Some "Bearer tok:64b7f0a1c2d3e4f501234568")))
               "tok:64b7f0a1c2d3e4f501234568" "s3cret"
               (mkJwtPayload "64b7f0a1c2d3e4f501234568") Sample.bob);
    vm_compute; reflexivity.
Defined.

(** ** The Express [UserService] *)

Section ServiceLemmas.

Variable queryError : string -> option Thrown.

Lemma set_isActive_same u :
  IUser.isActive u = false -> IUser.set_isActive false u = u.
Proof. destruct u; simpl; intros ->; reflexivity. Qed.

Lemma getUserById_run id s :
  getUserById queryError id s
  = match queryError id with
    | Some e => (Throw (ErrorObj "Error" ("Failed to get user: " +:+ toString e)),
                 logged [FindById id] s)
    | None => (Ok (IUser.set_password None <$> users s !! id), logged [FindById id] s)
    end.
Proof.
  unfold getUserById, try_catch, User_findById, bind, emit, modify, get, ret, throw.
  destruct (queryError id); reflexivity.
Qed.

Lemma deleteUser_run id s :
  deleteUser queryError id s
  = match queryError id with
    | Some e => (Throw (ErrorObj "Error" ("Failed to delete user: " +:+ toString e)),
                 logged [FindByIdAndUpdate id] s)
    | None =>
        match users s !! id with
        | Some u =>
            (Ok true,
             mkServer (request s) (env s)
                      (<[id := IUser.set_updatedAt (clock s) (IUser.set_isActive false u)]> (users s))
                      (clock s) (trace s ++ [FindByIdAndUpdate id]))
        | None => (Ok false, logged [FindByIdAndUpdate id] s)
        end
    end.
Proof.
  unfold deleteUser, try_catch, User_findByIdAndUpdate, bind, emit, modify, get, ret,
    throw, put_users.
  destruct (queryError id); simpl; [reflexivity|].
  destruct (users s !! id); reflexivity.
Qed.

Lemma findByIdAndUpdate_old_run id set s :
  User_findByIdAndUpdate_old queryError id set s
  = match queryError id with
    | Some e => (Throw e, logged [FindByIdAndUpdate id] s)
    | None =>
        match users s !! id with
        | Some u =>
            (Ok (Some u),
             mkServer (request s) (env s)
                      (<[id := IUser.set_updatedAt (clock s) (set u)]> (users s))
                      (clock s) (trace s ++ [FindByIdAndUpdate id]))
        | None => (Ok None, logged [FindByIdAndUpdate id] s)
        end
    end.
Proof.
  unfold User_findByIdAndUpdate_old, bind, emit, modify, get, ret, throw, put_users.
  destruct (queryError id); simpl; [reflexivity|].
  destruct (users s !! id); reflexivity.
Qed.

Lemma updatePassword_run bcrypt_hash salt id newPassword s :
  updatePassword queryError bcrypt_hash salt id newPassword s
  = match queryError id with
    | Some e => (Throw (ErrorObj "Error" ("Failed to update password: " +:+ toString e)),
                 logged [FindByIdAndUpdate id] s)
    | None =>
        match users s !! id with
        | Some u =>
            (Ok true,
             mkServer (request s) (env s)
                      (<[id := IUser.set_updatedAt (clock s)
                                 (IUser.set_password (Some (bcrypt_hash newPassword 12%nat salt)) u)]>
                         (users s))
                      (clock s) (trace s ++ [FindByIdAndUpdate id]))
        | None => (Ok false, logged [FindByIdAndUpdate id] s)
        end
    end.
Proof.
  unfold updatePassword, try_catch, bind at 1. rewrite findByIdAndUpdate_old_run.
  destruct (queryError id); [reflexivity|].
  destruct (users s !! id); reflexivity.
Qed.

Lemma updateLastLogin_run id s :
  updateLastLogin queryError id s
  = match queryError id with
    | Some e => (Throw (ErrorObj "Error" ("Failed to update last login: " +:+ toString e)),
                 logged [FindByIdAndUpdate id] s)
    | None =>
        match users s !! id with
        | Some u =>
            (Ok tt,
             mkServer (request s) (env s)
                      (<[id := IUser.set_updatedAt (clock s) (set_lastLoginAt (Some (clock s)) u)]>
                         (users s))
                      (clock s) (trace s ++ [FindByIdAndUpdate id]))
        | None => (Ok tt, logged [FindByIdAndUpdate id] s)
        end
    end.
Proof.
  unfold updateLastLogin, try_catch, bind at 1, get. unfold bind at 1.
  rewrite findByIdAndUpdate_old_run.
  destruct (queryError id); [reflexivity|].
  destruct (users s !! id); reflexivity.
Qed.

Lemma dom_update_existing (m : gmap string IUser.t) id u u' :
  m !! id = Some u -> dom (<[id := u']> m) = dom m.
Proof. intros H. apply dom_insert_lookup_L. eauto. Qed.

(** Replacing a document by one the condition judges alike keeps the
    count. *)
Lemma countWhere_update_alike cond (m : gmap string IUser.t) id u u' :
  m !! id = Some u -> cond u' = cond u ->
  countWhere cond (<[id := u']> m) = countWhere cond m.
Proof.
  intros Hu Hsame. unfold countWhere. rewrite map_filter_insert.
  destruct (cond u) eqn:Hcond; simpl in *.
  - rewrite decide_True by (simpl; exact Hsame).
    apply map_size_insert_Some. exists u.
    apply map_lookup_filter_Some. split; [exact Hu | exact Hcond].
  - rewrite decide_False by (simpl; congruence).
    rewrite map_filter_delete. apply map_size_delete_None.
    apply map_lookup_filter_None. right. intros u0 Hu0. simpl.
    rewrite Hu in Hu0. injection Hu0 as <-. congruence.
Qed.

(** Replacing a counted document by one that is not lowers the count by
    one. *)
Lemma countWhere_update_drop cond (m : gmap string IUser.t) id u u' :
  m !! id = Some u -> cond u = true -> cond u' = false ->
  S (countWhere cond (<[id := u']> m)) = countWhere cond m.
Proof.
  intros Hu Hin Hout. unfold countWhere.
  rewrite map_filter_insert_False by (simpl; congruence).
  rewrite map_filter_delete.
  assert (Hlook : filter (fun entry : string * IUser.t => cond entry.2 = true) m !! id = Some u).
  { apply map_lookup_filter_Some. split; assumption. }
  rewrite map_size_delete, Hlook.
  assert (Hpos : size (filter (fun entry : string * IUser.t => cond entry.2 = true) m) <> 0).
  { intros Hzero. apply map_size_empty_inv in Hzero. rewrite Hzero in Hlook.
    rewrite lookup_empty in Hlook. discriminate. }
  destruct (size _); [contradiction | reflexivity].
Qed.

Lemma getUserStats_run s :
  getUserStats None s
  = (Ok (if Nat.eqb (size (users s)) 0 then mkUserStats 0 0 0 0
         else mkUserStats (size (users s))
                          (countWhere IUser.isActive (users s))
                          (countWhere IUser.isVerified (users s))
                          (countWhere (fun u => String.eqb (IUser.role u) "admin") (users s))),
     s).
Proof.
  unfold getUserStats, try_catch, User_aggregate_stats, bind, get, ret.
  destruct (Nat.eqb (size (users s)) 0); reflexivity.
Qed.

End ServiceLemmas.

(** X9. [getUserById] only reads: the collection is unchanged whatever
    the outcome.  A document it returns is the stored one without its
    password; an id that is not stored gives null; a driver error comes
    back as an [Error] whose message starts with "Failed to get user: ". *)
Theorem getUserById_reads_without_password
    (queryError : string -> option Thrown) (id : string) (s : Server) :
  users (snd (getUserById queryError id s)) = users s
  /\ events_of (getUserById queryError id) s = [FindById id]
  /\ (forall found, fst (getUserById queryError id s) = Ok (Some found) ->
        IUser.password found = None /\
        exists doc, users s !! id = Some doc /\ found = IUser.set_password None doc)
  /\ (queryError id = None -> users s !! id = None ->
        fst (getUserById queryError id s) = Ok None)
  /\ (forall e, queryError id = Some e ->
        fst (getUserById queryError id s)
        = Throw (ErrorObj "Error" ("Failed to get user: " +:+ toString e))).
Proof.
  unfold events_of. rewrite getUserById_run.
  destruct (queryError id) as [e|] eqn:Hq; simpl; rewrite drop_app_length.
  - split; [reflexivity|]. split; [reflexivity|]. split; [discriminate|].
    split; [discriminate|]. intros e' He'. injection He' as <-. reflexivity.
  - split; [reflexivity|]. split; [reflexivity|]. split; [|split].
    + intros found Hfound. destruct (users s !! id) as [doc|]; [|discriminate].
      simpl in Hfound. injection Hfound as <-.
      split; [reflexivity|]. exists doc. split; reflexivity.
    + intros _ ->. reflexivity.
    + discriminate.
Qed.

Lemma getUserById_reads_without_password_witness :
  fst (getUserById Sample.queryError "64b7f0a1c2d3e4f501234560" (Sample.server None None)) = Ok None
  /\ fst (getUserById Sample.queryError "42" (Sample.server None None))
     = Throw (ErrorObj "Error" "Failed to get user: CastError: Cast to ObjectId failed").
Proof.
  destruct (getUserById_reads_without_password Sample.queryError
              "64b7f0a1c2d3e4f501234560" (Sample.server None None))
    as (_ & _ & _ & Hnone & _).
  destruct (getUserById_reads_without_password Sample.queryError
              "42" (Sample.server None None))
    as (_ & _ & _ & _ & Hthrow).
  split.
  - apply Hnone; vm_compute; reflexivity.
  - apply (Hthrow (ErrorObj "CastError" "Cast to ObjectId failed")). reflexivity.
Defined.

(** X10. [deleteUser] for an id that is not stored returns false and
    leaves the collection as it is; when the driver fails it throws an
    [Error] whose message starts with "Failed to delete user: ", again
    with the collection unchanged. *)
Theorem deleteUser_unknown_or_failed
    (queryError : string -> option Thrown) (id : string) (s : Server) :
  (queryError id = None -> users s !! id = None ->
   deleteUser queryError id s = (Ok false, logged [FindByIdAndUpdate id] s))
  /\ (forall e, queryError id = Some e ->
        deleteUser queryError id s
        = (Throw (ErrorObj "Error" ("Failed to delete user: " +:+ toString e)),
           logged [FindByIdAndUpdate id] s)).
Proof.
  rewrite deleteUser_run. split.
  - intros -> ->. reflexivity.
  - intros e ->. reflexivity.
Qed.

Lemma deleteUser_unknown_or_failed_witness :
  deleteUser Sample.queryError "64b7f0a1c2d3e4f501234560" (Sample.server None None)
  = (Ok false, logged [FindByIdAndUpdate "64b7f0a1c2d3e4f501234560"] (Sample.server None None))
  /\ deleteUser Sample.queryError "42" (Sample.server None None)
     = (Throw (ErrorObj "Error" "Failed to delete user: CastError: Cast to ObjectId failed"),
        logged [FindByIdAndUpdate "42"] (Sample.server None None)).
Proof.
  split.
  - apply (proj1 (deleteUser_unknown_or_failed Sample.queryError
                    "64b7f0a1c2d3e4f501234560" (Sample.server None None)));
      vm_compute; reflexivity.
  - apply (proj2 (deleteUser_unknown_or_failed Sample.queryError "42" (Sample.server None None))
                 (ErrorObj "CastError" "Cast to ObjectId failed")).
    reflexivity.
Defined.

(** X11. Deleting a user that is already inactive succeeds again: the
    call returns true, not false, and the record is as before except for
    a new [updatedAt]. *)
Theorem deleteUser_again
    (queryError : string -> option Thrown) (id : string) (s : Server) (u : IUser.t) :
  queryError id = None -> users s !! id = Some u -> IUser.isActive u = false ->
  fst (deleteUser queryError id s) = Ok true
  /\ users (snd (deleteUser queryError id s))
     = <[id := IUser.set_updatedAt (clock s) u]> (users s).
Proof.
  intros Hq Hu Hinactive. rewrite deleteUser_run, Hq, Hu. simpl.
  rewrite (set_isActive_same u Hinactive). split; reflexivity.
Qed.

Lemma deleteUser_again_witness :
  fst (deleteUser Sample.queryError "64b7f0a1c2d3e4f501234567" (Sample.server None None))
  = Ok true.
Proof.
  apply (deleteUser_again Sample.queryError "64b7f0a1c2d3e4f501234567"
           (Sample.server None None) Sample.alice);
    vm_compute; reflexivity.
Defined.



(** X13. None of [deleteUser], [updatePassword] and [updateLastLogin]
    ever adds or removes a record: the set of stored ids is the same
    after the call, whether it succeeds, finds nothing or throws. *)
Theorem service_updates_keep_ids
    (queryError : string -> option Thrown)
    (bcrypt_hash : string -> nat -> string -> string)
    (salt id newPassword : string) (s : Server) :
  dom (users (snd (deleteUser queryError id s))) = dom (users s)
  /\ dom (users (snd (updatePassword queryError bcrypt_hash salt id newPassword s)))
     = dom (users s)
  /\ dom (users (snd (updateLastLogin queryError id s))) = dom (users s).
Proof.
  rewrite deleteUser_run, updatePassword_run, updateLastLogin_run.
  destruct (queryError id); [repeat split|].
  destruct (users s !! id) as [u|] eqn:Hu; [|repeat split].
  simpl. repeat split; apply (dom_update_existing _ id u _ Hu).
Qed.

(** X14. [updatePassword] on a stored user returns true and replaces the
    password by the bcrypt hash of the new one, stamping [updatedAt];
    every other field and every other record is as before.  For an id
    that is not stored it returns false and changes no record. *)
Theorem updatePassword_stores_hash
    (queryError : string -> option Thrown)
    (bcrypt_hash : string -> nat -> string -> string)
    (salt id newPassword : string) (s : Server) :
  queryError id = None ->
  (forall u, users s !! id = Some u ->
     fst (updatePassword queryError bcrypt_hash salt id newPassword s) = Ok true
     /\ users (snd (updatePassword queryError bcrypt_hash salt id newPassword s)) !! id
        = Some (IUser.mk (IUser.id u) (IUser.email u) (IUser.username u)
                         (Some (bcrypt_hash newPassword 12%nat salt))
                         (IUser.firstName u) (IUser.lastName u) (IUser.avatar u)
                         (IUser.isVerified u) (IUser.isActive u) (IUser.role u)
                         (IUser.createdAt u) (clock s) (IUser.lastLoginAt u)
                         (IUser.preferences u))
     /\ (forall id', id' <> id ->
           users (snd (updatePassword queryError bcrypt_hash salt id newPassword s)) !! id'
           = users s !! id'))
  /\ (users s !! id = None ->
      fst (updatePassword queryError bcrypt_hash salt id newPassword s) = Ok false
      /\ users (snd (updatePassword queryError bcrypt_hash salt id newPassword s)) = users s).
Proof.
  intros Hq. rewrite updatePassword_run, Hq. split.
  - intros u ->. simpl. repeat split.
    + apply lookup_insert_eq.
    + intros id' Hne. apply lookup_insert_ne. congruence.
  - intros ->. split; reflexivity.
Qed.

Lemma updatePassword_stores_hash_witness :
  IUser.password
    <$> users (snd (updatePassword Sample.queryError Sample.bcrypt_hash
                      "saltsaltsaltsaltsalt22" "64b7f0a1c2d3e4f501234568" "N3wPassword!"
                      (Sample.server None None)))
        !! "64b7f0a1c2d3e4f501234568"
  = Some (Some "$2b$12$saltsaltsaltsaltsalt22!drowssaPw3N").
Proof.
  destruct (proj1 (updatePassword_stores_hash Sample.queryError Sample.bcrypt_hash
                     "saltsaltsaltsaltsalt22" "64b7f0a1c2d3e4f501234568" "N3wPassword!"
                     (Sample.server None None) eq_refl) Sample.bob)
    as (_ & Hdoc & _); [vm_compute; reflexivity|].
  rewrite Hdoc. reflexivity.
Defined.

Lemma verifyPassword_run
    (queryError : string -> option Thrown)
    (bcrypt_compare : string -> option string -> result bool)
    (NotFoundError : string -> Thrown) (id password : string) (s : Server) :
  verifyPassword queryError bcrypt_compare NotFoundError id password s
  = (match queryError id with
     | Some e => Throw (ErrorObj "Error" ("Failed to verify password: " +:+ toString e))
     | None =>
         match users s !! id with
         | None =>
             Throw (ErrorObj "Error" ("Failed to verify password: "
                                      +:+ toString (NotFoundError "User not found")))
         | Some u =>
             match bcrypt_compare password (IUser.password u) with
             | Ok matches => Ok matches
             | Throw e => Throw (ErrorObj "Error" ("Failed to verify password: " +:+ toString e))
             end
         end
     end,
     logged [FindById id] s).
Proof.
  unfold verifyPassword, try_catch, User_findById, bind, emit, modify, get, ret, throw, lift.
  destruct (queryError id); simpl; [reflexivity|].
  destruct (users s !! id) as [u|]; [|reflexivity].
  destruct (bcrypt_compare password (IUser.password u)); reflexivity.
Qed.

(** X15. A password set with [updatePassword] is the one [verifyPassword]
    accepts afterwards, given that [bcrypt.compare] accepts a string
    against its own [bcrypt.hash]. *)
Theorem updatePassword_then_verifyPassword
    (queryError : string -> option Thrown)
    (bcrypt_hash : string -> nat -> string -> string)
    (bcrypt_compare : string -> option string -> result bool)
    (NotFoundError : string -> Thrown)
    (salt id newPassword : string) (s : Server) (u : IUser.t) :
  (forall data rounds salt',
      bcrypt_compare data (Some (bcrypt_hash data rounds salt')) = Ok true) ->
  queryError id = None -> users s !! id = Some u ->
  fst (verifyPassword queryError bcrypt_compare NotFoundError id newPassword
         (snd (updatePassword queryError bcrypt_hash salt id newPassword s)))
  = Ok true.
Proof.
  intros Hlaw Hq Hu. rewrite verifyPassword_run, updatePassword_run, Hq, Hu. simpl.
  rewrite lookup_insert_eq. simpl. rewrite Hlaw. reflexivity.
Qed.

Lemma updatePassword_then_verifyPassword_witness :
  fst (verifyPassword Sample.queryError Fixture.plain_compare Fixture.NotFoundError
         "64b7f0a1c2d3e4f501234568" "N3wPassword!"
         (snd (updatePassword Sample.queryError Fixture.plain_hash "salt"
                 "64b7f0a1c2d3e4f501234568" "N3wPassword!" (Sample.server None None))))
  = Ok true.
Proof.
  apply (updatePassword_then_verifyPassword Sample.queryError
           Fixture.plain_hash Fixture.plain_compare Fixture.NotFoundError
           "salt" "64b7f0a1c2d3e4f501234568" "N3wPassword!" (Sample.server None None) Sample.bob).
  - intros data rounds salt'. unfold Fixture.plain_compare, Fixture.plain_hash.
    rewrite String.eqb_refl. reflexivity.
  - reflexivity.
  - vm_compute; reflexivity.
Defined.

(** X16. [verifyPassword] for an id that is not stored does not return
    false: its [NotFoundError] is caught by its own handler and comes
    out as a plain [Error], "Failed to verify password: " followed by
    the text of the [NotFoundError].  The collection is not touched. *)
Theorem verifyPassword_unknown_user
    (queryError : string -> option Thrown)
    (bcrypt_compare : string -> option string -> result bool)
    (NotFoundError : string -> Thrown) (id password : string) (s : Server) :
  queryError id = None -> users s !! id = None ->
  verifyPassword queryError bcrypt_compare NotFoundError id password s
  = (Throw (ErrorObj "Error" ("Failed to verify password: "
                              +:+ toString (NotFoundError "User not found"))),
     logged [FindById id] s).
Proof. intros Hq Hu. rewrite verifyPassword_run, Hq, Hu. reflexivity. Qed.

Lemma verifyPassword_unknown_user_witness :
  verifyPassword Sample.queryError Fixture.plain_compare Fixture.NotFoundError
    "64b7f0a1c2d3e4f501234560" "anything" (Sample.server None None)
  = (Throw (ErrorObj "Error" "Failed to verify password: NotFoundError: User not found"),
     logged [FindById "64b7f0a1c2d3e4f501234560"] (Sample.server None None)).
Proof.
  apply (verifyPassword_unknown_user Sample.queryError Fixture.plain_compare
           Fixture.NotFoundError "64b7f0a1c2d3e4f501234560" "anything"
           (Sample.server None None));
    vm_compute; reflexivity.
Defined.

(** X17. [getUserStats] changes nothing and, when the aggregation
    succeeds, reports the size of the collection as [totalUsers] and
    counts of active, verified and admin users that never exceed it; on
    an empty collection all four are zero. *)
Theorem getUserStats_counts (s : Server) :
  exists stats,
    getUserStats None s = (Ok stats, s)
    /\ totalUsers stats = size (users s)
    /\ activeUsers stats <= totalUsers stats
    /\ verifiedUsers stats <= totalUsers stats
    /\ adminUsers stats <= totalUsers stats
    /\ (users s = ∅ -> stats = mkUserStats 0 0 0 0).
Proof.
  rewrite getUserStats_run. eexists. split; [reflexivity|].
  destruct (Nat.eqb_spec (size (users s)) 0) as [Hzero|Hpos]; simpl.
  - rewrite Hzero. repeat split; auto.
  - repeat split; try apply map_size_filter.
    intros Hempty. rewrite Hempty, map_size_empty in Hpos. contradiction.
Qed.

Lemma getUserStats_counts_witness :
  fst (getUserStats None (Sample.server None None)) = Ok (mkUserStats 2 1 2 1).
Proof.
  destruct (getUserStats_counts (Sample.server None None)) as (stats & Hrun & _).
  rewrite Hrun. simpl. vm_compute in Hrun. congruence.
Defined.

(** X18. Soft-deleting an active user lowers [activeUsers] by exactly one
    and leaves [totalUsers], [verifiedUsers] and [adminUsers] as they
    were. *)
Theorem deleteUser_moves_one_count
    (queryError : string -> option Thrown) (id : string) (s : Server) (u : IUser.t) :
  queryError id = None -> users s !! id = Some u -> IUser.isActive u = true ->
  exists before after,
    fst (getUserStats None s) = Ok before
    /\ fst (getUserStats None (snd (deleteUser queryError id s))) = Ok after
    /\ totalUsers after = totalUsers before
    /\ S (activeUsers after) = activeUsers before
    /\ verifiedUsers after = verifiedUsers before
    /\ adminUsers after = adminUsers before.
Proof.
  intros Hq Hu Hactive. rewrite !getUserStats_run, deleteUser_run, Hq, Hu. simpl.
  set (u' := IUser.set_updatedAt (clock s) (IUser.set_isActive false u)).
  assert (Hsize : size (<[id := u']> (users s)) = size (users s)).
  { apply map_size_insert_Some. eauto. }
  assert (Hpos : Nat.eqb (size (users s)) 0 = false).
  { apply Nat.eqb_neq. intros Hzero. apply map_size_empty_inv in Hzero.
    rewrite Hzero, lookup_empty in Hu. discriminate. }
  rewrite Hsize, Hpos. do 2 eexists. split; [reflexivity|]. split; [reflexivity|]. simpl.
  split; [reflexivity|]. split; [|split].
  - apply (countWhere_update_drop IUser.isActive (users s) id u u' Hu Hactive). reflexivity.
  - apply (countWhere_update_alike IUser.isVerified (users s) id u u' Hu). reflexivity.
  - apply (countWhere_update_alike _ (users s) id u u' Hu). reflexivity.
Qed.

Lemma deleteUser_moves_one_count_witness :
  exists before after,
    fst (getUserStats None (Sample.server None None)) = Ok before
    /\ fst (getUserStats None
              (snd (deleteUser Sample.queryError "64b7f0a1c2d3e4f501234568"
                               (Sample.server None None)))) = Ok after
    /\ totalUsers after = totalUsers before
    /\ S (activeUsers after) = activeUsers before
    /\ verifiedUsers after = verifiedUsers before
    /\ adminUsers after = adminUsers before.
Proof.
  apply (deleteUser_moves_one_count Sample.queryError "64b7f0a1c2d3e4f501234568"
           (Sample.server None None) Sample.bob);
    vm_compute; reflexivity.
Defined.

(** ** More on roles, permissions and the [User] entity *)

Section PermissionLemmas.

Implicit Types (r : Role.t) (p q : Permission.t) (ps : list Permission.t).

Lemma addPermission_fresh r p ps :
  Role.permissions r = Some ps ->
  (forall q, In q ps -> Permission.id q <> Permission.id p) ->
  Role.addPermission r p = Role.with_permissions (Some (ps ++ [p])) r.
Proof.
  intros Hps Hfresh. unfold Role.addPermission. rewrite Hps.
  destruct (List.find _ ps) eqn:Hfind; [|reflexivity].
  apply find_some in Hfind as [Hin Heq]. apply String.eqb_eq in Heq.
  exfalso. exact (Hfresh _ Hin Heq).
Qed.

Lemma filter_other_ids_In ps pid q :
  In q (List.filter (fun q => negb (String.eqb (Permission.id q) pid)) ps)
  <-> In q ps /\ Permission.id q <> pid.
Proof. rewrite filter_In, negb_true_iff, String.eqb_neq. reflexivity. Qed.

Lemma NoDup_ids_filter (keep : Permission.t -> bool) ps :
  NoDup (Permission.id <$> ps) -> NoDup (Permission.id <$> List.filter keep ps).
Proof.
  induction ps as [|q ps IH]; simpl; intros Hnodup; [constructor|].
  apply NoDup_cons in Hnodup as [Hnotin Hnodup].
  destruct (keep q); simpl; [|auto].
  apply NoDup_cons. split; [|auto].
  intros Hin. apply Hnotin. apply list_elem_of_fmap in Hin as (q' & Hid & Hq').
  apply list_elem_of_fmap. exists q'. split; [exact Hid|].
  apply list_elem_of_In. apply list_elem_of_In in Hq'.
  apply filter_In in Hq'. tauto.
Qed.

End PermissionLemmas.

(** X19. If no two listed permissions of a role share an id, that is
    still so after [addPermission] and after [removePermission]. *)
Theorem permission_ids_stay_distinct (r : Role.t) (p : Permission.t) (permissionId : string) :
  NoDup (permissionIds r) ->
  NoDup (permissionIds (Role.addPermission r p))
  /\ NoDup (permissionIds (Role.removePermission r permissionId)).
Proof.
  unfold permissionIds. intros Hnodup. split.
  - unfold Role.addPermission.
    destruct (Role.permissions r) as [ps|] eqn:Hps; simpl in *.
    + destruct (List.find _ ps) eqn:Hfind; destruct r; simpl in *.
      * exact Hnodup.
      * rewrite fmap_app. apply NoDup_app. split; [exact Hnodup|]. split.
        -- intros x Hx Hp. apply list_elem_of_singleton in Hp. subst x.
           apply list_elem_of_fmap in Hx as (q & Hid & Hq).
           apply list_elem_of_In in Hq.
           pose proof (find_none _ _ Hfind q Hq) as Hne. simpl in Hne.
           rewrite Hid, String.eqb_refl in Hne. discriminate.
        -- apply NoDup_singleton.
    + destruct r; simpl in *. apply NoDup_singleton.
  - unfold Role.removePermission.
    destruct (Role.permissions r) as [ps|] eqn:Hps; simpl in *.
    + destruct r; simpl in *. apply NoDup_ids_filter. exact Hnodup.
    + rewrite Hps. constructor.
Qed.

Lemma permission_ids_stay_distinct_witness :
  NoDup (permissionIds (Role.addPermission Sample.capitalAdmin Sample.readUsers))
  /\ NoDup (permissionIds (Role.removePermission Sample.capitalAdmin "p1")).
Proof.
  apply (permission_ids_stay_distinct Sample.capitalAdmin Sample.readUsers "p1").
  unfold permissionIds. simpl.
  repeat (apply NoDup_cons; split; [intros Hin; inversion Hin; subst;
                                     match goal with
                                     | H : _ ∈ _ |- _ => inversion H
                                     end|]).
  apply NoDup_nil. exact I.
Defined.

(** X20. Adding to a role a permission whose id it does not list and
    then removing that id gives back the role with the permissions it
    listed before: the role exactly as it was when it had a permission
    collection, and the role with an empty collection when it had
    none. *)
Theorem addPermission_then_removePermission (r : Role.t) (p : Permission.t) :
  (forall ps q, Role.permissions r = Some ps -> In q ps ->
                Permission.id q <> Permission.id p) ->
  Role.removePermission (Role.addPermission r p) (Permission.id p)
  = Role.with_permissions (Some (default [] (Role.permissions r))) r
  /\ (forall ps, Role.permissions r = Some ps ->
        Role.removePermission (Role.addPermission r p) (Permission.id p) = r)
  /\ (Role.permissions r = None ->
      Role.permissions (Role.removePermission (Role.addPermission r p) (Permission.id p))
      = Some []).
Proof.
  intros Hfresh.
  assert (Hround : Role.removePermission (Role.addPermission r p) (Permission.id p)
                   = Role.with_permissions (Some (default [] (Role.permissions r))) r).
  { destruct (Role.permissions r) as [ps|] eqn:Hps.
    - rewrite (addPermission_fresh r p ps Hps (fun q => Hfresh ps q eq_refl)).
      unfold Role.removePermission. destruct r; simpl in *.
      rewrite List.filter_app. simpl. rewrite String.eqb_refl. simpl.
      rewrite app_nil_r, (filter_other_ids_id ps _ (fun q => Hfresh ps q eq_refl)).
      reflexivity.
    - unfold Role.addPermission, Role.removePermission. rewrite Hps.
      destruct r; simpl in *. rewrite String.eqb_refl. reflexivity. }
  split; [exact Hround|]. split.
  - intros ps Hps. rewrite Hround, Hps. apply with_permissions_same, Hps.
  - intros Hnone. rewrite Hround, Hnone. destruct r; reflexivity.
Qed.

Lemma addPermission_then_removePermission_witness :
  Role.removePermission (Role.addPermission Sample.reader Sample.manageUsers) "p1"
  = Sample.reader
  /\ Role.permissions (Role.removePermission (Role.addPermission Sample.blank Sample.readUsers) "p2")
     = Some [].
Proof.
  split.
  - apply (proj1 (proj2 (addPermission_then_removePermission Sample.reader Sample.manageUsers
                           ltac:(intros ps q Hps Hin; injection Hps as <-;
                                 destruct Hin as [<-|[]]; discriminate)))
                 [Sample.readUsers] eq_refl).
  - apply (proj2 (proj2 (addPermission_then_removePermission Sample.blank Sample.readUsers
                           ltac:(intros ps q Hps; discriminate Hps)))).
    reflexivity.
Defined.

(** X21. After [addPermission(p)] the role answers [hasPermission] without
    throwing, even if it had no permission collection before; and if
    [p]'s id was new to the role, it answers true for [p]'s name and as
    before for every other name. *)
Theorem hasPermission_after_addPermission (r : Role.t) (p : Permission.t) :
  (forall name, exists answer,
      Role.hasPermission (Role.addPermission r p) name = Ok answer)
  /\ ((forall ps q, Role.permissions r = Some ps -> In q ps ->
                    Permission.id q <> Permission.id p) ->
      Role.hasPermission (Role.addPermission r p) (Permission.name p) = Ok true
      /\ (forall ps name, Role.permissions r = Some ps -> name <> Permission.name p ->
            Role.hasPermission (Role.addPermission r p) name = Role.hasPermission r name)).
Proof.
  split.
  - intros name. destruct (addPermission_lists_id r p) as (ps & Hps & _).
    unfold Role.hasPermission. rewrite Hps. eauto.
  - intros Hfresh.
    assert (Hadd : Role.permissions (Role.addPermission r p)
                   = Some (default [] (Role.permissions r) ++ [p])).
    { unfold Role.addPermission.
      destruct (Role.permissions r) as [ps|] eqn:Hps; simpl.
      - destruct (List.find _ ps) eqn:Hfind; destruct r; simpl in *; [|reflexivity].
        apply find_some in Hfind as [Hin Heq]. apply String.eqb_eq in Heq.
        exfalso. exact (Hfresh ps _ eq_refl Hin Heq).
      - destruct r; reflexivity. }
    unfold Role.hasPermission. rewrite Hadd. split.
    + f_equal. rewrite existsb_app. simpl. rewrite String.eqb_refl.
      rewrite orb_true_r. reflexivity.
    + intros ps name Hps Hname. rewrite Hps. simpl. f_equal.
      rewrite existsb_app. simpl.
      assert (Hneq : String.eqb (Permission.name p) name = false)
        by (apply String.eqb_neq; congruence).
      rewrite Hneq. simpl. apply orb_false_r.
Qed.

Lemma hasPermission_after_addPermission_witness :
  Role.hasPermission (Role.addPermission Sample.blank Sample.readUsers) "users:read" = Ok true.
Proof.
  apply (proj2 (hasPermission_after_addPermission Sample.blank Sample.readUsers)).
  intros ps q Hps. discriminate Hps.
Defined.

(** X22. After [removePermission(id)] no listed permission has that id
    and the others are all still listed; so if every permission of a
    given name had that id, [hasPermission] of the name is now false. *)
Theorem hasPermission_after_removePermission
    (r : Role.t) (permissionId : string) (ps : list Permission.t) :
  Role.permissions r = Some ps ->
  (exists ps',
      Role.permissions (Role.removePermission r permissionId) = Some ps'
      /\ (forall q, In q ps' <-> In q ps /\ Permission.id q <> permissionId))
  /\ (forall name,
         (forall q, In q ps -> Permission.name q = name -> Permission.id q = permissionId) ->
         Role.hasPermission (Role.removePermission r permissionId) name = Ok false).
Proof.
  intros Hps. unfold Role.hasPermission, Role.removePermission. rewrite Hps.
  destruct r; simpl in *. split.
  - eexists. split; [reflexivity|]. intros q. apply filter_other_ids_In.
  - intros wanted Hwanted. f_equal.
    destruct (existsb _ _) eqn:Hex; [|reflexivity].
    apply existsb_exists in Hex as (q & Hin & Heq).
    apply filter_other_ids_In in Hin as [Hin Hne]. apply String.eqb_eq in Heq.
    exfalso. exact (Hne (Hwanted q Hin Heq)).
Qed.

Lemma hasPermission_after_removePermission_witness :
  Role.hasPermission (Role.removePermission Sample.capitalAdmin "p1") "users:manage" = Ok false.
Proof.
  apply (proj2 (hasPermission_after_removePermission Sample.capitalAdmin "p1"
                  [Sample.manageUsers; Sample.readUsers] eq_refl)).
  intros q [<-|[<-|[]]]; [reflexivity | discriminate].
Defined.

(** X23. The [hashPassword] hook does not hash a hash: since what
    [bcrypt.hash] returns starts with "$2b$", running the hook a second
    time, as every later update does, leaves the entity as the first run
    left it. *)
Theorem hashPassword_once
    (bcrypt_hash : string -> nat -> string -> string)
    (salt salt' : string) (this : User.t) :
  (forall data rounds s, startsWith "$2b$" (bcrypt_hash data rounds s) = true) ->
  User.hashPassword bcrypt_hash salt' (User.hashPassword bcrypt_hash salt this)
  = User.hashPassword bcrypt_hash salt this.
Proof.
  intros Hprefix. unfold User.hashPassword at 2.
  destruct (User.password this) as [pw|] eqn:Hpw.
  - destruct (negb (String.eqb pw "") && negb (startsWith "$2b$" pw)) eqn:Hhash.
    + unfold User.hashPassword, User.with_password. cbn [User.password].
      rewrite Hprefix, andb_false_r, Hpw, Hhash. reflexivity.
    + unfold User.hashPassword. rewrite Hpw, Hhash. reflexivity.
  - unfold User.hashPassword. rewrite Hpw. reflexivity.
Qed.

Lemma hashPassword_once_witness :
  User.hashPassword Sample.bcrypt_hash "another-salt-another-s"
    (User.hashPassword Sample.bcrypt_hash "saltsaltsaltsaltsalt22"
       (Sample.account (Some "Password123!") []))
  = User.hashPassword Sample.bcrypt_hash "saltsaltsaltsaltsalt22"
      (Sample.account (Some "Password123!") []).
Proof.
  apply (hashPassword_once Sample.bcrypt_hash). intros data rounds s. reflexivity.
Defined.

(** X24. [User.toJSON] drops [password], [verificationToken] and
    [resetPasswordToken] and nothing else: every other property of the
    entity is in the result with its value, among them [id] and [email],
    and also [resetPasswordExpires] when it is set. *)
Theorem User_toJSON_keeps_the_rest (this : User.t) :
  (forall key, key <> "password" -> key <> "verificationToken" ->
               key <> "resetPasswordToken" ->
               User_toJSON this !! key = User_properties this !! key)
  /\ User_toJSON this !! "id" = Some (JsString (User.id this))
  /\ User_toJSON this !! "email" = Some (JsString (User.email this))
  /\ (forall expires, User.resetPasswordExpires this = Some expires ->
        User_toJSON this !! "resetPasswordExpires" = Some (JsDate expires)).
Proof.
  assert (Hrest : forall key, key <> "password" -> key <> "verificationToken" ->
                              key <> "resetPasswordToken" ->
                              User_toJSON this !! key = User_properties this !! key).
  { intros key H1 H2 H3. unfold User_toJSON. rewrite rest_without_lookup.
    rewrite bool_decide_eq_false_2; [reflexivity|].
    intros Hin. repeat (apply elem_of_cons in Hin as [->|Hin]; [congruence|]).
    inversion Hin. }
  split; [exact Hrest|].
  split.
  { rewrite Hrest by discriminate. unfold User_properties. simpl.
    apply lookup_insert_eq. }
  split.
  - rewrite Hrest by discriminate. unfold User_properties. simpl.
    rewrite lookup_insert_ne by discriminate. apply lookup_insert_eq.
  - intros expires Hexpires. rewrite Hrest by discriminate.
    unfold User_properties. rewrite Hexpires.
    destruct (User.password this), (User.phone this), (User.avatar this),
      (User.lastLoginAt this), (User.verificationToken this),
      (User.resetPasswordToken this); simpl;
      repeat (rewrite lookup_insert_ne by discriminate); apply lookup_insert_eq.
Qed.

Lemma User_toJSON_keeps_the_rest_witness :
  User_toJSON (Sample.account (Some "secret") []) !! "email"
  = User_properties (Sample.account (Some "secret") []) !! "email".
Proof.
  apply (proj1 (User_toJSON_keeps_the_rest (Sample.account (Some "secret") [])));
    discriminate.
Defined.

(** ** The NestJS service and controller *)

Section NestLemmas.

Implicit Types (rows : Nest.Repository) (row : Nest.User).

Lemma nest_find_by_id_absent rows id :
  (forall row, In row rows -> Nest.id row <> id) ->
  List.find (fun r => String.eqb (Nest.id r) id) rows = None.
Proof.
  intros Habsent. destruct (List.find _ rows) as [row|] eqn:Hfind; [|reflexivity].
  apply nest_find_by_id in Hfind as [Hin Hid]. exfalso. exact (Habsent row Hin Hid).
Qed.

Lemma find_after_absent {A} (f : A -> bool) (xs ys : list A) :
  List.find f xs = None -> List.find f (xs ++ ys) = List.find f ys.
Proof.
  induction xs as [|x xs IH]; simpl; [reflexivity|].
  destruct (f x); [discriminate | exact IH].
Qed.

Lemma nest_getUserById_run rows id :
  Nest.getUserById id rows
  = match List.find (fun r => String.eqb (Nest.id r) id) rows with
    | Some row => (Ok row, rows)
    | None => (Throw (ErrorObj "NotFoundException" "User not found"), rows)
    end.
Proof.
  unfold Nest.getUserById, Nest.findOne_by_id, bind, get, ret, throw.
  destruct (List.find _ rows); reflexivity.
Qed.

Lemma nest_deleteUser_run rows id :
  Nest.deleteUser id rows
  = match List.find (fun r => String.eqb (Nest.id r) id) rows with
    | Some _ => (Ok tt, List.filter (fun r => negb (String.eqb (Nest.id r) id)) rows)
    | None => (Throw (ErrorObj "NotFoundException" "User not found"), rows)
    end.
Proof.
  unfold Nest.deleteUser, bind. rewrite nest_getUserById_run.
  destruct (List.find _ rows) as [row|] eqn:Hfind; [|reflexivity].
  apply nest_find_by_id in Hfind as [_ Hid].
  unfold Nest.remove, modify. rewrite Hid. reflexivity.
Qed.

Lemma nest_find_by_email rows email row :
  List.find (fun r => String.eqb (Nest.email r) email) rows = Some row ->
  In row rows /\ Nest.email row = email.
Proof.
  intros H. apply find_some in H as [Hin Heq]. split; [exact Hin|].
  apply String.eqb_eq, Heq.
Qed.

Lemma nest_find_by_email_absent rows email :
  (forall row, In row rows -> Nest.email row <> email) ->
  List.find (fun r => String.eqb (Nest.email r) email) rows = None.
Proof.
  intros Habsent. destruct (List.find _ rows) as [row|] eqn:Hfind; [|reflexivity].
  apply nest_find_by_email in Hfind as [Hin Heq]. exfalso. exact (Habsent row Hin Heq).
Qed.

Lemma nest_createUser_run bcrypt_hash salt newId now userData rows :
  NestApi.createUser bcrypt_hash salt newId now userData rows
  = match List.find (fun r => String.eqb (Nest.email r) (NestApi.dto_email userData)) rows with
    | Some _ => (Throw (ErrorObj "ConflictException" "User already exists"), rows)
    | None =>
        let user := Nest.mkUser newId (NestApi.dto_email userData)
                                (bcrypt_hash (NestApi.dto_password userData) 10%nat salt)
                                (NestApi.dto_name userData) None now now in
        (Ok user, rows ++ [user])
    end.
Proof.
  unfold NestApi.createUser, NestApi.findOne_by_email, NestApi.save_new,
    bind, get, ret, throw, modify.
  destruct (List.find _ rows); reflexivity.
Qed.

End NestLemmas.

(** X25. In the NestJS service, [getUserById] and [deleteUser] for an id
    that is not stored throw [NotFoundException] "User not found" and
    leave the table as it is; deleting the same id a second time
    therefore always throws. *)
Theorem nest_unknown_id_throws :
  (forall (rows : Nest.Repository) (id : string),
      (forall row, In row rows -> Nest.id row <> id) ->
      Nest.getUserById id rows
      = (Throw (ErrorObj "NotFoundException" "User not found"), rows)
      /\ Nest.deleteUser id rows
         = (Throw (ErrorObj "NotFoundException" "User not found"), rows))
  /\ (forall (rows : Nest.Repository) (id : string),
         Nest.deleteUser id (snd (Nest.deleteUser id rows))
         = (Throw (ErrorObj "NotFoundException" "User not found"),
            snd (Nest.deleteUser id rows))).
Proof.
  split.
  - intros rows id Habsent.
    rewrite nest_getUserById_run, nest_deleteUser_run, (nest_find_by_id_absent rows id Habsent).
    split; reflexivity.
  - intros rows id. rewrite (nest_deleteUser_run (snd _)).
    rewrite nest_find_by_id_absent; [reflexivity|].
    intros row Hin Hid. rewrite nest_deleteUser_run in Hin.
    destruct (List.find _ rows) as [found|] eqn:Hfind; simpl in Hin.
    + apply filter_In in Hin as [_ Hkeep].
      rewrite Hid, String.eqb_refl in Hkeep. discriminate.
    + pose proof (find_none _ _ Hfind row Hin) as Hne. simpl in Hne.
      rewrite Hid, String.eqb_refl in Hne. discriminate.
Qed.

Lemma nest_unknown_id_throws_witness :
  Nest.deleteUser "missing" [Sample.carol]
  = (Throw (ErrorObj "NotFoundException" "User not found"), [Sample.carol]).
Proof.
  apply (proj1 nest_unknown_id_throws [Sample.carol] "missing").
  intros row [<-|[]]. discriminate.
Defined.

(** X26. [createUser] of the NestJS service: when no row has the email,
    it appends one row with the given email and name, the bcrypt hash
    (10 rounds) of the password and no role, returns it, and
    [getUserById] of its id then finds it; when a row has the email, it
    throws [ConflictException] "User already exists" and the table is
    unchanged. *)
Theorem nest_createUser_outcomes
    (bcrypt_hash : string -> nat -> string -> string)
    (salt newId : string) (now : Z) (userData : NestApi.CreateUserDto)
    (rows : Nest.Repository) :
  ((forall row, In row rows -> Nest.email row <> NestApi.dto_email userData) ->
   NestApi.createUser bcrypt_hash salt newId now userData rows
   = (Ok (Nest.mkUser newId (NestApi.dto_email userData)
                      (bcrypt_hash (NestApi.dto_password userData) 10%nat salt)
                      (NestApi.dto_name userData) None now now),
      rows ++ [Nest.mkUser newId (NestApi.dto_email userData)
                           (bcrypt_hash (NestApi.dto_password userData) 10%nat salt)
                           (NestApi.dto_name userData) None now now])
   /\ ((forall row, In row rows -> Nest.id row <> newId) ->
       fst (Nest.getUserById newId
              (snd (NestApi.createUser bcrypt_hash salt newId now userData rows)))
       = fst (NestApi.createUser bcrypt_hash salt newId now userData rows)))
  /\ ((exists row, In row rows /\ Nest.email row = NestApi.dto_email userData) ->
      NestApi.createUser bcrypt_hash salt newId now userData rows
      = (Throw (ErrorObj "ConflictException" "User already exists"), rows)).
Proof.
  rewrite nest_createUser_run. split.
  - intros Hfree. rewrite (nest_find_by_email_absent rows _ Hfree). simpl.
    split; [reflexivity|]. intros Hfresh.
    rewrite nest_getUserById_run.
    rewrite (find_after_absent _ _ _ (nest_find_by_id_absent rows newId Hfresh)).
    simpl. rewrite String.eqb_refl. reflexivity.
  - intros (row & Hin & Hemail).
    destruct (List.find _ rows) eqn:Hfind; [reflexivity|].
    pose proof (find_none _ _ Hfind row Hin) as Hne. simpl in Hne.
    rewrite Hemail, String.eqb_refl in Hne. discriminate.
Qed.

Lemma nest_createUser_outcomes_witness :
  fst (Nest.getUserById "d00d"
         (snd (NestApi.createUser Sample.bcrypt_hash "saltsaltsaltsaltsalt22" "d00d" 400
                 Fixture.dave [Sample.carol])))
  = fst (NestApi.createUser Sample.bcrypt_hash "saltsaltsaltsaltsalt22" "d00d" 400
           Fixture.dave [Sample.carol])
  /\ NestApi.createUser Sample.bcrypt_hash "saltsaltsaltsaltsalt22" "d00d" 400
       (NestApi.mkCreateUserDto "carol@example.com" "password123" "Other Carol") [Sample.carol]
     = (Throw (ErrorObj "ConflictException" "User already exists"), [Sample.carol]).
Proof.
  split.
  - apply (proj1 (nest_createUser_outcomes Sample.bcrypt_hash "saltsaltsaltsaltsalt22"
                    "d00d" 400 Fixture.dave [Sample.carol])).
    + intros row [<-|[]]. discriminate.
    + intros row [<-|[]]. discriminate.
  - apply (proj2 (nest_createUser_outcomes Sample.bcrypt_hash "saltsaltsaltsaltsalt22"
                    "d00d" 400
                    (NestApi.mkCreateUserDto "carol@example.com" "password123" "Other Carol")
                    [Sample.carol])).
    exists Sample.carol. split; [left|]; reflexivity.
Defined.

(** X27. [createUser] keeps emails unique: if no two rows share an email
    before the call, none do after it, whether it inserts or throws. *)
Theorem nest_createUser_keeps_emails_unique
    (bcrypt_hash : string -> nat -> string -> string)
    (salt newId : string) (now : Z) (userData : NestApi.CreateUserDto)
    (rows : Nest.Repository) :
  NoDup (Nest.email <$> rows) ->
  NoDup (Nest.email <$> snd (NestApi.createUser bcrypt_hash salt newId now userData rows)).
Proof.
  intros Hnodup. rewrite nest_createUser_run.
  destruct (List.find _ rows) eqn:Hfind; simpl; [exact Hnodup|].
  rewrite fmap_app. apply NoDup_app. split; [exact Hnodup|]. split; [|apply NoDup_singleton].
  intros email Hin Hnew. simpl in Hnew. apply list_elem_of_singleton in Hnew. subst email.
  apply list_elem_of_fmap in Hin as (row & Hemail & Hrow). apply list_elem_of_In in Hrow.
  pose proof (find_none _ _ Hfind row Hrow) as Hne. simpl in Hne.
  rewrite <- Hemail, String.eqb_refl in Hne. discriminate.
Qed.

Lemma nest_createUser_keeps_emails_unique_witness :
  NoDup (Nest.email
           <$> snd (NestApi.createUser Sample.bcrypt_hash "saltsaltsaltsaltsalt22" "d00d" 400
                      Fixture.dave [Sample.carol])).
Proof.
  apply (nest_createUser_keeps_emails_unique Sample.bcrypt_hash "saltsaltsaltsaltsalt22"
           "d00d" 400 Fixture.dave [Sample.carol]).
  simpl. apply NoDup_singleton.
Defined.

(** X28. [POST /api/users]: for a new email the controller answers 201
    with [success] set and a [data] object that has the given email and
    name and the new id but no [passwordHash]; for an email already
    stored it throws [HttpException] "User already exists" with status
    400 and the table is unchanged. *)
Theorem controller_createUser_reply
    (bcrypt_hash : string -> nat -> string -> string)
    (salt newId : string) (now : Z) (userData : NestApi.CreateUserDto)
    (rows : Nest.Repository) :
  ((forall row, In row rows -> Nest.email row <> NestApi.dto_email userData) ->
   exists data,
     fst (NestApi.controller_createUser bcrypt_hash salt newId now userData rows)
     = Ok (NestApi.Json 201 true (Some data) None)
     /\ data !! "email" = Some (JsString (NestApi.dto_email userData))
     /\ data !! "name" = Some (JsString (NestApi.dto_name userData))
     /\ data !! "id" = Some (JsString newId)
     /\ data !! "passwordHash" = None)
  /\ ((exists row, In row rows /\ Nest.email row = NestApi.dto_email userData) ->
      NestApi.controller_createUser bcrypt_hash salt newId now userData rows
      = (Ok (NestApi.HttpException (Some "User already exists") 400), rows)).
Proof.
  unfold NestApi.controller_createUser, try_catch, bind.
  rewrite nest_createUser_run. split.
  - intros Hfree. rewrite (nest_find_by_email_absent rows _ Hfree). simpl.
    eexists. split; [reflexivity|].
    unfold sanitizeUser. rewrite !rest_without_lookup.
    repeat split.
  - intros (row & Hin & Hemail).
    destruct (List.find _ rows) eqn:Hfind; [reflexivity|].
    pose proof (find_none _ _ Hfind row Hin) as Hne. simpl in Hne.
    rewrite Hemail, String.eqb_refl in Hne. discriminate.
Qed.

Lemma controller_createUser_reply_witness :
  NestApi.controller_createUser Sample.bcrypt_hash "saltsaltsaltsaltsalt22" "d00d" 400
    (NestApi.mkCreateUserDto "carol@example.com" "password123" "Other Carol") [Sample.carol]
  = (Ok (NestApi.HttpException (Some "User already exists") 400), [Sample.carol]).
Proof.
  apply (proj2 (controller_createUser_reply Sample.bcrypt_hash "saltsaltsaltsaltsalt22"
                  "d00d" 400
                  (NestApi.mkCreateUserDto "carol@example.com" "password123" "Other Carol")
                  [Sample.carol])).
  exists Sample.carol. split; [left|]; reflexivity.
Defined.

(** X29. For an id that is not stored, [GET /api/users/:id] throws
    [HttpException] "User not found" with status 404 and
    [DELETE /api/users/:id] throws it with status 400; neither changes
    the table.  For a stored id the delete answers 200 "User deleted
    successfully" and the rows with that id are gone. *)
Theorem controller_unknown_id_replies (rows : Nest.Repository) (id : string) :
  ((forall row, In row rows -> Nest.id row <> id) ->
   NestApi.controller_getUser id rows
   = (Ok (NestApi.HttpException (Some "User not found") 404), rows)
   /\ NestApi.controller_deleteUser id rows
      = (Ok (NestApi.HttpException (Some "User not found") 400), rows))
  /\ ((exists row, In row rows /\ Nest.id row = id) ->
      NestApi.controller_deleteUser id rows
      = (Ok (NestApi.Json 200 true None (Some "User deleted successfully")),
         List.filter (fun row => negb (String.eqb (Nest.id row) id)) rows)).
Proof.
  unfold NestApi.controller_getUser, NestApi.controller_deleteUser, try_catch, bind.
  rewrite nest_getUserById_run, nest_deleteUser_run. split.
  - intros Habsent. rewrite (nest_find_by_id_absent rows id Habsent). split; reflexivity.
  - intros Hex. destruct (nest_find_by_id_present rows id Hex) as (row & ->). reflexivity.
Qed.

Lemma controller_unknown_id_replies_witness :
  NestApi.controller_deleteUser "missing" [Sample.carol]
  = (Ok (NestApi.HttpException (Some "User not found") 400), [Sample.carol])
  /\ NestApi.controller_deleteUser "c0ffee" [Sample.carol]
     = (Ok (NestApi.Json 200 true None (Some "User deleted successfully")), []).
Proof.
  split.
  - apply (proj1 (controller_unknown_id_replies [Sample.carol] "missing")).
    intros row [<-|[]]. discriminate.
  - apply (proj2 (controller_unknown_id_replies [Sample.carol] "c0ffee")).
    exists Sample.carol. split; [left|]; reflexivity.
Defined.
